(** * API-key plugin: credential store and key lifecycle manager

    A shallow embedding of [apiKeys-plugin/models.py] (class [APIKey]) and
    [apiKeys-plugin/apiKeyManager.py] (class [APIKeyManager]).

    - The table [api_keys] is a finite map from primary key to row.
    - Python exceptions are values of [exn]; a method is a state transformer
      over the table that either returns or raises.
    - What the plugin obtains from outside (the entropy source, hashlib, the
      clock, the text of an exception, failures of the database on a write)
      is passed in: fixed functions are variables of the section, what changes
      from call to call is a field of [env]. *)

From Stdlib Require Import ZArith String.
From Stdlib Require QArith_base.
From stdpp Require Import base option list gmap strings sorting.

Local Open Scope Z_scope.
Local Open Scope string_scope.

Set Warnings "-register-all".

(** ** Values decoded from a request body ([json.loads]) and values handed
    to [json.dumps].  A number is an int or a float; a finite float is kept
    as the rational it stands for, NaN and the infinities as [JNonFinite].
    A dict is the list of its items, each key at most once. *)
Inductive json : Type :=
| JNull
| JBool (b : bool)
| JInt (n : Z)
| JFloat (x : QArith_base.Q)
| JNonFinite
| JStr (s : string)
| JList (l : list json)
| JDict (items : list (string * json)).

(** ** Exceptions *)
Inductive exn : Type :=
| DoesNotExist                   (* APIKey.DoesNotExist, raised by objects.get *)
| MultipleObjectsReturned        (* raised by objects.get *)
| IntegrityError (column : string) (* a constraint of the table refused the row *)
| AttributeError (receiver : json) (* .get called on a value that is no dict *)
| FieldError (value : json)      (* the value given for id is no integer *)
| ExternalError (what : string). (* raised by a collaborator: entropy, hashlib, database *)

Definition is_DoesNotExist (x : exn) : bool :=
  match x with DoesNotExist => true | _ => false end.

(** ** The model class: one row of [api_keys] (the primary key [id] is the
    key of the table). *)
Record APIKey : Type := mkAPIKey {
  admin : Z;                 (* admin_id, the owning Administrator *)
  key_hash : string;         (* unique *)
  key_prefix : string;
  name : string;
  created_at : Z;            (* auto_now_add *)
  last_used : option Z;      (* null=True *)
  is_active : bool           (* default=True *)
}.

Definition set_last_used (k : APIKey) (t : option Z) : APIKey :=
  mkAPIKey (admin k) (key_hash k) (key_prefix k) (name k) (created_at k) t (is_active k).

Definition set_is_active (k : APIKey) (b : bool) : APIKey :=
  mkAPIKey (admin k) (key_hash k) (key_prefix k) (name k) (created_at k) (last_used k) b.

(** A model instance: primary key and field values. *)
Abbreviation instance := (Z * APIKey)%type.

(** ** The database: the table and its AUTO_INCREMENT counter. *)
Record DB : Type := mkDB {
  api_keys : gmap Z APIKey;
  next_id : Z
}.

Definition set_api_keys (db : DB) (t : gmap Z APIKey) : DB := mkDB t (next_id db).

(** ** What one call reads from outside. *)
Record env : Type := mkEnv {
  now : Z;                         (* timezone.now() *)
  token_urlsafe : exn + string;    (* secrets.token_urlsafe(32), or what it raised *)
  write_fault : option exn         (* what the database raises on this call's write, if anything *)
}.

(** ** Methods: state over [DB], with exceptions.  A raise keeps the state
    reached so far (every statement is committed on its own). *)
Definition M (A : Type) : Type := DB → (exn + A) * DB.

#[export] Instance M_ret : MRet M := λ A a db, (inr a, db).
#[export] Instance M_bind : MBind M := λ A B f m db,
  match m db with
  | (inr a, db') => f a db'
  | (inl x, db') => (inl x, db')
  end.

Definition raise {A} (x : exn) : M A := λ db, (inl x, db).
Definition lift {A} (r : exn + A) : M A := λ db, (r, db).
Definition get_db : M DB := λ db, (inr db, db).
Definition put_next_id (n : Z) : M unit := λ db, (inr tt, mkDB (api_keys db) n).

(** [try: body except x: handler x] *)
Definition try_except {A} (body : M A) (handler : exn → M A) : M A := λ db,
  match body db with
  | (inr a, db') => (inr a, db')
  | (inl x, db') => handler x db'
  end.

(** A view-level [try ... except Exception as e: return ...]: every raise
    becomes a response. *)
Definition respond (body : M json) (handler : exn → json) : DB → json * DB := λ db,
  match body db with
  | (inr r, db') => (r, db')
  | (inl x, db') => (handler x, db')
  end.

(** ** The object manager [APIKey.objects] *)

(** The rows a query selects, in no particular order. *)
Definition select (P : instance → Prop) `{!∀ r, Decision (P r)} (db : DB) : list instance :=
  map_to_list (filter P (api_keys db)).

(** [objects.get(...)]: the one row that satisfies the lookup.  The query
    is evaluated on the table as it is: a database that fails while it
    reads is not part of this model ([write_fault] is about writes). *)
Definition objects_get (P : instance → Prop) `{!∀ r, Decision (P r)} : M instance := λ db,
  match select P db with
  | [] => (inl DoesNotExist, db)
  | [r] => (inr r, db)
  | _ => (inl MultipleObjectsReturned, db)
  end.

(** The write of a call: refused when the database is at fault. *)
Definition db_write (e : env) (f : gmap Z APIKey → gmap Z APIKey) : M unit := λ db,
  match write_fault e with
  | Some x => (inl x, db)
  | None => (inr tt, set_api_keys db (f (api_keys db)))
  end.

(** [self.save()]: every column of the row [i] is written. *)
Definition save (e : env) (r : instance) : M unit :=
  db_write e (<[r.1 := r.2]>).

(** [self.save(update_fields=['last_used'])]: only that column is written. *)
Definition save_last_used (e : env) (r : instance) : M unit :=
  db_write e (alter (λ row, set_last_used row (last_used r.2)) r.1).

(** [self.delete()] *)
Definition delete_instance (e : env) (r : instance) : M unit :=
  db_write e (delete r.1).

(** ** Sample data: two owners, a table with one key, and stand-ins for
    the collaborators, on which the results below are exercised. *)
Module Sample.

Definition sha256_hexdigest (s : string) : exn + string :=
  if bool_decide (s = "cp_undigestible") then inl (ExternalError "hashlib")
  else inr ("sha256:" +:+ s).

Definition isoformat (t : Z) : string :=
  if bool_decide (t = 100) then "1970-01-01T00:01:40" else "1970-01-01T00:00:00".

Definition exn_str (x : exn) : string :=
  match x with
  | DoesNotExist => "APIKey matching query does not exist."
  | MultipleObjectsReturned => "get() returned more than one APIKey"
  | IntegrityError column => "constraint failed: " +:+ column
  | AttributeError _ => "object has no attribute 'get'"
  | FieldError _ => "Field 'id' expected a number"
  | ExternalError what => what
  end.

Definition py_str (v : json) : string := "<value>".

Definition py_int (s : string) : option Z :=
  if bool_decide (s = "1") then Some 1 else None.

Definition alice : Z := 1.
Definition bob : Z := 2.

Definition secret : string := "cp_0123456789abcdef".

Definition row : APIKey :=
  mkAPIKey alice "sha256:cp_0123456789abcdef" "cp_012345678" "CI Token" 100 None true.

Definition empty_db : DB := mkDB ∅ 1.
Definition db : DB := mkDB {[1 := row]} 2.
Definition db_inactive : DB := mkDB {[1 := set_is_active row false]} 2.

(** The call that creates [row]; a later call; a later call during which
    the database refuses to write. *)
Definition at_create : env := mkEnv 100 (inr "0123456789abcdef") None.
Definition later : env := mkEnv 200 (inr "fedcba9876543210") None.
Definition later_db_down : env :=
  mkEnv 200 (inr "fedcba9876543210") (Some (ExternalError "database is gone")).
Definition no_entropy : env := mkEnv 100 (inl (ExternalError "no entropy")) None.
Definition undigestible : env := mkEnv 100 (inr "undigestible") None.

Definition create_payload : json := JDict [("name", JStr "CI Token")].
Definition key_payload : json := JDict [("keyID", JInt 1)].
Definition key_items : list (string * json) := [("keyID", JInt 1)].

End Sample.

(** ** The view layer (views.py) *)

(** What a view reads of the request: the user id of the session (absent
    when nobody is logged in), the body, and the Host header. *)
Record request : Type := mkRequest {
  session_userID : option Z;     (* request.session['userID'] *)
  body : string;                 (* request.body *)
  HTTP_HOST : option string      (* request.META.get('HTTP_HOST') *)
}.

(** What a view raises before it reaches the manager. *)
Inductive view_exn : Type :=
| KeyError (key : string)              (* request.session['userID'] *)
| Administrator_DoesNotExist           (* Administrator.objects.get(pk=userID) *)
| JSONDecodeError (doc : string).      (* json.loads(request.body) *)

(** What [apiKeysHome] answers. *)
Inductive page : Type :=
| Redirect (to : string)
| Render (template : string) (context : list (string * json)).

(** Stand-ins of the view layer for the sample data. *)
Module SampleViews.

Definition json_dumps_indent (v : json) : string :=
  match v with
  | JDict (("servers", _) :: _) => "{vscode}"
  | JDict (("mcpServers", _) :: _) => "{claude}"
  | _ => "{}"
  end.

Definition json_loads (s : string) : option json :=
  if bool_decide (s = "{keyID: 1}") then Some (JDict [("keyID", JInt 1)])
  else if bool_decide (s = "{}") then Some (JDict [])
  else None.

Definition view_exn_str (x : view_exn) : string :=
  match x with
  | KeyError key => "'" +:+ key +:+ "'"
  | Administrator_DoesNotExist => "Administrator matching query does not exist."
  | JSONDecodeError _ => "Expecting value"
  end.

(** Administrators by primary key: alice is the one named admin. *)
Definition admins : gmap Z string := {[1 := "admin"; 2 := "bob"]}.

Definition as_alice : request := mkRequest (Some 1) "{keyID: 1}" (Some "panel:8090").
Definition as_bob : request := mkRequest (Some 2) "{keyID: 1}" None.
Definition as_nobody : request := mkRequest None "{keyID: 1}" None.
Definition as_stranger : request := mkRequest (Some 9) "{keyID: 1}" None.

(** A second key, of bob, beside the one of alice. *)
Definition row_bob : APIKey :=
  mkAPIKey 2 "sha256:cp_fedcba9876543210" "cp_fedcba987" "Unnamed Key" 150 None true.
Definition db_two : DB := mkDB {[1 := Sample.row; 2 := row_bob]} 3.

(** A third key, of alice again, created after the two others. *)
Definition row_newer : APIKey :=
  mkAPIKey 1 "sha256:cp_0123456789zyxwvu" "cp_012345678" "Deploy" 300 (Some 350) false.
Definition db_three : DB :=
  mkDB {[1 := Sample.row; 2 := row_bob; 3 := row_newer]} 4.

End SampleViews.

Section Plugin.

(** [hashlib.sha256(raw_key.encode()).hexdigest()], or what it raised. *)
Variable sha256_hexdigest : string → exn + string.
(** [datetime.isoformat()] *)
Variable isoformat : Z → string.
(** [str(e)] for an exception [e]. *)
Variable exn_str : exn → string.
(** [str(v)] for a decoded value [v] that is no string. *)
Variable py_str : json → string.
(** [int(s)] for a string [s]; [None] when it raises ValueError. *)
Variable py_int : string → option Z.

(** *** models.py *)

(** What a CharField stores for the value it is given (NULL is refused:
    the column is NOT NULL). *)
Definition char_column (column : string) (v : json) : exn + string :=
  match v with
  | JNull => inl (IntegrityError column)
  | JStr s => inr s
  | _ => inr (py_str v)
  end.

(** [cls.objects.create(admin=, key_hash=, key_prefix=, name=)] *)
Definition objects_create (e : env) (a : Z) (h p : string) (nm : json) : M instance :=
  n ← lift (char_column "name" nm);
  db ← get_db;
  let i := next_id db in
  let row := mkAPIKey a h p n (now e) None true in
  match api_keys db !! i, select (λ r, key_hash r.2 = h) db with
  | None, [] =>
      db_write e (<[i := row]>);;
      put_next_id (i + 1);;
      mret (i, row)
  | Some _, _ => raise (IntegrityError "id")
  | None, _ => raise (IntegrityError "key_hash")
  end.

Definition generate_key (e : env) : M string :=
  tok ← lift (token_urlsafe e);
  mret ("cp_" +:+ tok).

Definition hash_key (raw_key : string) : M string :=
  lift (sha256_hexdigest raw_key).

Definition get_prefix (raw_key : string) : string :=
  if bool_decide (12 ≤ String.length raw_key)%nat
  then substring 0 12 raw_key
  else raw_key.

Definition update_last_used (e : env) (self : instance) : M instance :=
  let self' := (self.1, set_last_used self.2 (Some (now e))) in
  save_last_used e self';;
  mret self'.

Definition create_key (e : env) (a : Z) (nm : json) : M (instance * string) :=
  raw_key ← generate_key e;
  h ← hash_key raw_key;
  api_key ← objects_create e a h (get_prefix raw_key) nm;
  mret (api_key, raw_key).

Definition validate_key (e : env) (raw_key : string) : M (option instance) :=
  if bool_decide (raw_key = "") || negb (String.prefix "cp_" raw_key)
  then mret None
  else
    h ← hash_key raw_key;
    try_except
      (api_key ← objects_get (λ r, key_hash r.2 = h ∧ is_active r.2 = true);
       api_key' ← update_last_used e api_key;
       mret (Some api_key'))
      (λ x, if is_DoesNotExist x then mret None else raise x).

(** *** apiKeyManager.py *)

(** [APIKeyManager.ajaxPre] *)
Definition ajaxPre (status : Z) (errorMessage : string) : json :=
  JDict [("status", JInt status); ("error_message", JStr errorMessage)].

(** [d[key]] for the items of a dict, when present. *)
Fixpoint assoc (key : string) (items : list (string * json)) : option json :=
  match items with
  | [] => None
  | (k, v) :: rest => if bool_decide (k = key) then Some v else assoc key rest
  end.

(** [data.get(key, default)] *)
Definition dict_get (data : json) (key : string) (default : json) : M json :=
  match data with
  | JDict items => mret (from_option id default (assoc key items))
  | _ => raise (AttributeError data)
  end.

(** The field of a response, for reading results. *)
Definition field (key : string) (resp : json) : option json :=
  match resp with
  | JDict items => assoc key items
  | _ => None
  end.

(** [int(x)] for a finite float: the fraction is dropped. *)
Definition float_to_int (x : QArith_base.Q) : Z :=
  Z.quot (QArith_base.Qnum x) (Z.pos (QArith_base.Qden x)).

(** The integer an [id=] lookup compares with: [None] matches no row
    (exact lookup with None is IS NULL, and the primary key is never
    NULL); any other value goes through [int(value)]: a bool is 0 or 1, a
    finite float loses its fraction, a string is read as a number when it
    is one; a value [int] does not take is refused. *)
Definition id_lookup_value (v : json) : exn + option Z :=
  match v with
  | JNull => inr None
  | JInt n => inr (Some n)
  | JBool b => inr (Some (if b then 1 else 0))
  | JFloat x => inr (Some (float_to_int x))
  | JStr s => match py_int s with
              | Some n => inr (Some n)
              | None => inl (FieldError v)
              end
  | JNonFinite | JList _ | JDict _ => inl (FieldError v)
  end.

(** [APIKey.objects.get(id=key_id, admin=self.admin)] *)
Definition objects_get_owned (key_id : json) (a : Z) : M instance :=
  oi ← lift (id_lookup_value key_id);
  match oi with
  | None => raise DoesNotExist
  | Some i => objects_get (λ r, r.1 = i ∧ admin r.2 = a)
  end.

(** The handlers of [revokeKey], [deleteKey]:
    [except APIKey.DoesNotExist] first, then [except Exception as e]. *)
Definition not_found_or_message (x : exn) : json :=
  if is_DoesNotExist x then ajaxPre 0 "API key not found"
  else ajaxPre 0 (exn_str x).

Definition createKey (a : Z) (e : env) (data : json) : DB → json * DB :=
  respond
    (nm ← dict_get data "name" (JStr "Unnamed Key");
     '(api_key, raw_key) ← create_key e a nm;
     mret (JDict [("status", JInt 1);
                  ("key", JStr raw_key);
                  ("id", JInt api_key.1);
                  ("name", nm);
                  ("key_prefix", JStr (key_prefix api_key.2));
                  ("created_at", JStr (isoformat (created_at api_key.2)));
                  ("warning", JStr "Save this key now! It cannot be shown again.")]))
    (λ x, ajaxPre 0 (exn_str x)).

(** Meta.ordering = ['-created_at'] *)
Definition newer_first (r1 r2 : instance) : Prop :=
  (created_at r2.2 ≤ created_at r1.2)%Z.

#[export] Instance newer_first_dec r1 r2 : Decision (newer_first r1 r2) :=
  Z_le_dec _ _.

(** [APIKey.objects.filter(admin=self.admin)], evaluated. *)
Definition objects_filter_admin (a : Z) : M (list instance) :=
  db ← get_db;
  mret (merge_sort newer_first (select (λ r, admin r.2 = a) db)).

(** One entry of [key_list]. *)
Definition key_summary (k : instance) : json :=
  JDict [("id", JInt k.1);
         ("name", JStr (name k.2));
         ("key_preview", JStr (key_prefix k.2 +:+ "..."));
         ("created_at", JStr (isoformat (created_at k.2)));
         ("last_used", match last_used k.2 with
                       | Some t => JStr (isoformat t)
                       | None => JNull
                       end);
         ("is_active", JBool (is_active k.2))].

Definition listKeys (a : Z) : DB → json * DB :=
  respond
    (keys ← objects_filter_admin a;
     mret (JDict [("status", JInt 1);
                  ("keys", JList (key_summary <$> keys))]))
    (λ x, ajaxPre 0 (exn_str x)).

(** The [try] block of [revokeKey]. *)
Definition revokeKey_try (a : Z) (e : env) (data : json) : M json :=
  key_id ← dict_get data "keyID" JNull;
  api_key ← objects_get_owned key_id a;
  let api_key' := (api_key.1, set_is_active api_key.2 (negb (is_active api_key.2))) in
  save e api_key';;
  mret (JDict [("status", JInt 1);
               ("is_active", JBool (is_active api_key'.2))]).

Definition revokeKey (a : Z) (e : env) (data : json) : DB → json * DB :=
  respond (revokeKey_try a e data) not_found_or_message.

(** The [try] block of [deleteKey]. *)
Definition deleteKey_try (a : Z) (e : env) (data : json) : M json :=
  key_id ← dict_get data "keyID" JNull;
  api_key ← objects_get_owned key_id a;
  delete_instance e api_key;;
  mret (JDict [("status", JInt 1)]).

Definition deleteKey (a : Z) (e : env) (data : json) : DB → json * DB :=
  respond (deleteKey_try a e data) not_found_or_message.

(** [APIKeyManager.validateKey]: the owner of a valid key. *)
Definition validateKey (e : env) (key_value : string) : M (option Z) :=
  api_key ← validate_key e key_value;
  mret (admin ∘ snd <$> api_key).

(** *** apiKeyManager.py, continued *)

(** [json.dumps(v, indent=2)] *)
Variable json_dumps_indent : json → string.

(** The [try] block of [getMCPConfig]. *)
Definition getMCPConfig_try (a : Z) (data : json) : M json :=
  key_id ← dict_get data "keyID" JNull;
  host ← dict_get data "host" (JStr "https://your-server.com:8090");
  api_key ← objects_get_owned key_id a;
  let vscode_config :=
    JDict [("servers",
            JDict [("cyberpanel",
                    JDict [("type", JStr "stdio");
                           ("command", JStr "node");
                           ("args", JList [JStr "/path/to/cyberpanel-mcp/dist/index.js"]);
                           ("env",
                            JDict [("CYBERPANEL_HOST", host);
                                   ("CYBERPANEL_API_KEY",
                                    JStr (key_prefix api_key.2
                                          +:+ "... (paste your saved key)"))])])])] in
  let claude_config :=
    JDict [("mcpServers",
            JDict [("cyberpanel",
                    JDict [("command", JStr "node");
                           ("args", JList [JStr "/path/to/cyberpanel-mcp/dist/index.js"]);
                           ("env",
                            JDict [("CYBERPANEL_HOST", host);
                                   ("CYBERPANEL_API_KEY",
                                    JStr (key_prefix api_key.2
                                          +:+ "... (paste your saved key)"))])])])] in
  mret (JDict [("status", JInt 1);
               ("vscode_config", JStr (json_dumps_indent vscode_config));
               ("claude_config", JStr (json_dumps_indent claude_config));
               ("note", JStr "Paste your saved API key in place of the placeholder")]).

Definition getMCPConfig (a : Z) (data : json) : DB → json * DB :=
  respond (getMCPConfig_try a data) not_found_or_message.

(** *** views.py *)

(** [json.loads(request.body)]; [None] when it raises. *)
Variable json_loads : string → option json.
(** [str(e)] for what a view raises. *)
Variable view_exn_str : view_exn → string.

(** The response of a view's [except Exception as e]. *)
Definition view_error (x : view_exn) : json :=
  JDict [("status", JInt 0); ("error_message", JStr (view_exn_str x))].

(** [userID = request.session['userID']] and
    [admin = Administrator.objects.get(pk=userID)], over the administrators
    (user name by primary key): the primary key and user name of [admin]. *)
Definition session_admin (admins : gmap Z string) (req : request)
  : view_exn + (Z * string) :=
  match session_userID req with
  | None => inl (KeyError "userID")
  | Some userID =>
      match admins !! userID with
      | None => inl Administrator_DoesNotExist
      | Some userName => inr (userID, userName)
      end
  end.

(** A view that hands the decoded body to a method of the manager. *)
Definition with_body (admins : gmap Z string) (req : request)
    (method : Z → json → DB → json * DB) : DB → json * DB := λ db,
  match session_admin admins req with
  | inl x => (view_error x, db)
  | inr (userID, _) =>
      match json_loads (body req) with
      | None => (view_error (JSONDecodeError (body req)), db)
      | Some data => method userID data db
      end
  end.

(** A view that calls a method of the manager without reading the body. *)
Definition without_body (admins : gmap Z string) (req : request)
    (method : Z → DB → json * DB) : DB → json * DB := λ db,
  match session_admin admins req with
  | inl x => (view_error x, db)
  | inr (userID, _) => method userID db
  end.

Definition views_createKey (admins : gmap Z string) (e : env) (req : request)
  : DB → json * DB :=
  with_body admins req (λ a data, createKey a e data).

Definition views_listKeys (admins : gmap Z string) (req : request) : DB → json * DB :=
  without_body admins req listKeys.

Definition views_toggleKey (admins : gmap Z string) (e : env) (req : request) (key_id : Z)
  : DB → json * DB :=
  without_body admins req (λ a, revokeKey a e (JDict [("keyID", JInt key_id)])).

Definition views_revokeKey (admins : gmap Z string) (e : env) (req : request)
  : DB → json * DB :=
  with_body admins req (λ a data, revokeKey a e data).

Definition views_deleteKey (admins : gmap Z string) (e : env) (req : request) (key_id : Z)
  : DB → json * DB :=
  without_body admins req (λ a, deleteKey a e (JDict [("keyID", JInt key_id)])).

Definition views_deleteKeyLegacy (admins : gmap Z string) (e : env) (req : request)
  : DB → json * DB :=
  with_body admins req (λ a data, deleteKey a e data).

Definition views_getMCPConfig (admins : gmap Z string) (req : request) : DB → json * DB :=
  with_body admins req getMCPConfig.

(** [get_plugin_version] over what version.json decodes to ([None] when
    opening or decoding it raises): the bare [except] answers 1.0.0. *)
Definition get_plugin_version (version_json : option json) : json :=
  match version_json with
  | Some (JDict items) => from_option id (JStr "1.0.0") (assoc "version" items)
  | _ => JStr "1.0.0"
  end.

Definition apiKeysHome (admins : gmap Z string) (version_json : option json)
    (req : request) : page :=
  match session_admin admins req with
  | inl _ => Redirect "/login"
  | inr (_, userName) =>
      if bool_decide (userName ≠ "admin") then Redirect "/login"
      else Render "apiKeys/apiKeys.html"
             [("admin", JBool true);
              ("serverHost", JStr (default "your-server.com:8090" (HTTP_HOST req)));
              ("plugin_version", get_plugin_version version_json)]
  end.

(** *** Definitions used to state results *)

(** The record [create_key] inserts for a raw secret. *)
Definition new_row (e : env) (a : Z) (raw_key h n : string) : APIKey :=
  mkAPIKey a h (get_prefix raw_key) n (now e) None true.

(** The response of a successful [createKey]. *)
Definition created_response (raw_key : string) (i : Z) (nm : json) (row : APIKey) : json :=
  JDict [("status", JInt 1);
         ("key", JStr raw_key);
         ("id", JInt i);
         ("name", nm);
         ("key_prefix", JStr (key_prefix row));
         ("created_at", JStr (isoformat (created_at row)));
         ("warning", JStr "Save this key now! It cannot be shown again.")].

(** The uniqueness constraint on [key_hash] (unique=True), as a property of
    the table. *)
Definition hash_unique (db : DB) : Prop :=
  ∀ i j ki kj,
    api_keys db !! i = Some ki → api_keys db !! j = Some kj →
    key_hash ki = key_hash kj → i = j.

(** ** Queries over the table *)

Lemma elem_of_select (P : instance → Prop) `{!∀ r, Decision (P r)} db r :
  r ∈ select P db ↔ api_keys db !! r.1 = Some r.2 ∧ P r.
Proof.
  unfold select. destruct r as [i k]. simpl.
  rewrite elem_of_map_to_list. apply map_lookup_filter_Some.
Qed.

Lemma select_nil (P : instance → Prop) `{!∀ r, Decision (P r)} db :
  (∀ i k, api_keys db !! i = Some k → ¬ P (i, k)) → select P db = [].
Proof.
  intros Hno. unfold select. apply map_to_list_empty_iff, map_empty.
  intros i. apply map_lookup_filter_None. right. intros k Hk. by apply Hno.
Qed.

Lemma select_one (P : instance → Prop) `{!∀ r, Decision (P r)} db i k :
  api_keys db !! i = Some k → P (i, k) →
  (∀ j k', api_keys db !! j = Some k' → P (j, k') → j = i) →
  select P db = [(i, k)].
Proof.
  intros Hi HP Huniq. unfold select.
  replace (filter P (api_keys db)) with ({[i := k]} : gmap Z APIKey).
  { apply map_to_list_singleton. }
  apply map_eq. intros j. destruct (decide (j = i)) as [->|Hne].
  - rewrite lookup_singleton_eq. symmetry. by apply map_lookup_filter_Some.
  - rewrite lookup_singleton_ne by done. symmetry.
    apply map_lookup_filter_None. right. intros k' Hk' HP'.
    apply Hne. by eapply Huniq.
Qed.

Lemma objects_get_returns (P : instance → Prop) `{!∀ r, Decision (P r)} db r db' :
  objects_get P db = (inr r, db') →
  db' = db ∧ api_keys db !! r.1 = Some r.2 ∧ P r.
Proof.
  unfold objects_get. destruct (select P db) as [|r0 [|r1 l]] eqn:Hs; try done.
  intros [= <- <-]. split; [done|].
  apply (elem_of_select P). rewrite Hs. by left.
Qed.

Lemma objects_get_one (P : instance → Prop) `{!∀ r, Decision (P r)} db i k :
  api_keys db !! i = Some k → P (i, k) →
  (∀ j k', api_keys db !! j = Some k' → P (j, k') → j = i) →
  objects_get P db = (inr (i, k), db).
Proof. intros. unfold objects_get. by erewrite select_one. Qed.

Lemma objects_get_none (P : instance → Prop) `{!∀ r, Decision (P r)} db :
  (∀ i k, api_keys db !! i = Some k → ¬ P (i, k)) →
  objects_get P db = (inl DoesNotExist, db).
Proof. intros. unfold objects_get. by rewrite select_nil. Qed.

Lemma select_nil_inv (P : instance → Prop) `{!∀ r, Decision (P r)} db i k :
  select P db = [] → api_keys db !! i = Some k → ¬ P (i, k).
Proof.
  intros Hs Hi HP. assert (Hin : (i, k) ∈ select P db) by by apply elem_of_select.
  rewrite Hs in Hin. by apply elem_of_nil in Hin.
Qed.

(** ** The monad, unfolded *)

Ltac run :=
  unfold save, save_last_used, delete_instance in *;
  unfold mbind, M_bind, mret, M_ret, lift, raise, get_db, put_next_id,
    try_except, respond, db_write in *;
  simpl in *.

(** ** [create_key]: it either raises and leaves the table as it was, or
    inserts one complete row and returns it with its raw secret. *)
Lemma create_key_outcome e a nm db :
  (∃ x, create_key e a nm db = (inl x, db) ∧
        (∀ tok h, token_urlsafe e = inr tok →
                  sha256_hexdigest ("cp_" +:+ tok) = inr h →
                  char_column "name" nm = inl x ∨
                  (x = IntegrityError "id" ∧ is_Some (api_keys db !! next_id db)) ∨
                  (x = IntegrityError "key_hash" ∧
                   ∃ j k, api_keys db !! j = Some k ∧ key_hash k = h) ∨
                  write_fault e = Some x)) ∨
  (∃ tok h n,
      token_urlsafe e = inr tok ∧
      sha256_hexdigest ("cp_" +:+ tok) = inr h ∧
      char_column "name" nm = inr n ∧
      api_keys db !! next_id db = None ∧
      (∀ j k, api_keys db !! j = Some k → key_hash k ≠ h) ∧
      write_fault e = None ∧
      create_key e a nm db =
        (inr ((next_id db, new_row e a ("cp_" +:+ tok) h n), "cp_" +:+ tok),
         mkDB (<[next_id db := new_row e a ("cp_" +:+ tok) h n]> (api_keys db))
              (next_id db + 1))).
Proof.
  unfold create_key, generate_key, hash_key, objects_create. run.
  destruct (token_urlsafe e) as [x|tok] eqn:Htok.
  { left. exists x. split; [done|]. intros ?? [=]. }
  destruct (sha256_hexdigest ("cp_" +:+ tok)) as [x|h] eqn:Hh.
  { left. exists x. split; [done|]. intros ?? [= <-]. by rewrite Hh. }
  destruct (char_column "name" nm) as [x|n] eqn:Hn.
  { left. exists x. split; [done|]. intros; by left. }
  destruct (api_keys db !! next_id db) as [k0|] eqn:Hid.
  { left. eexists. split; [done|]. intros. right. left. eauto. }
  destruct (select (λ r, key_hash r.2 = h) db) as [|r l] eqn:Hsel.
  - run. destruct (write_fault e) as [x|] eqn:Hw.
    + left. exists x. split; [done|]. intros; by do 3 right.
    + right. exists tok, h, n. repeat split; try done.
      intros j k Hj. by apply (select_nil_inv _ _ _ _ Hsel Hj).
  - left. eexists. split; [done|]. intros ?? [= <-] Hh'. right. right. left.
    split; [done|]. assert (Hin : r ∈ select (λ r, key_hash r.2 = h) db).
    { rewrite Hsel. by left. }
    apply elem_of_select in Hin as [Hr Hk]. exists r.1, r.2.
    split; [done|]. simpl in Hk. congruence.
Qed.

(** [createKey] answers status 0 and leaves the table as it was, or answers
    status 1 with the raw secret of the one row it inserted. *)
Lemma createKey_outcome a e data db :
  (∃ x, createKey a e data db = (ajaxPre 0 (exn_str x), db)) ∨
  (∃ items tok h n,
      let nm := from_option id (JStr "Unnamed Key") (assoc "name" items) in
      let raw_key := "cp_" +:+ tok in
      let row := new_row e a raw_key h n in
      data = JDict items ∧
      token_urlsafe e = inr tok ∧
      sha256_hexdigest raw_key = inr h ∧
      char_column "name" nm = inr n ∧
      api_keys db !! next_id db = None ∧
      (∀ j k, api_keys db !! j = Some k → key_hash k ≠ h) ∧
      write_fault e = None ∧
      createKey a e data db =
        (created_response raw_key (next_id db) nm row,
         mkDB (<[next_id db := row]> (api_keys db)) (next_id db + 1))).
Proof.
  unfold createKey, dict_get.
  destruct data as [| | | | | | |items];
    try (left; eexists; unfold respond, raise; reflexivity).
  set (nm := from_option id (JStr "Unnamed Key") (assoc "name" items)).
  destruct (create_key_outcome e a nm db) as
    [(x & Hc & _)|(tok & h & n & Htok & Hh & Hn & Hid & Hfree & Hw & Hc)].
  - left. exists x. unfold respond, mbind, M_bind, mret, M_ret. by rewrite Hc.
  - right. exists items, tok, h, n. repeat split; try done.
    unfold respond, mbind, M_bind, mret, M_ret. fold nm. by rewrite Hc.
Qed.

(** ** [validate_key] *)

Lemma alter_last_used (m : gmap Z APIKey) i k t :
  m !! i = Some k →
  alter (λ row, set_last_used row t) i m = <[i := set_last_used k t]> m.
Proof.
  intros Hi. apply map_eq. intros j. destruct (decide (j = i)) as [->|Hne].
  - by rewrite lookup_alter_eq, lookup_insert_eq, Hi.
  - by rewrite lookup_alter_ne, lookup_insert_ne.
Qed.

Lemma prefix_nonempty raw_key :
  String.prefix "cp_" raw_key = true →
  bool_decide (raw_key = "") || negb (String.prefix "cp_" raw_key) = false.
Proof.
  intros Hp. rewrite Hp. simpl. rewrite orb_false_r.
  apply bool_decide_eq_false. by intros ->.
Qed.

(** A raw secret whose digest is that of an active row: the row is found;
    what happens next is up to the write of [last_used]. *)
Lemma validate_key_found e raw_key db i k :
  (∀ j k', api_keys db !! j = Some k' → key_hash k' = key_hash k → j = i) →
  String.prefix "cp_" raw_key = true →
  sha256_hexdigest raw_key = inr (key_hash k) →
  api_keys db !! i = Some k →
  is_active k = true →
  validate_key e raw_key db =
    match write_fault e with
    | None =>
        (inr (Some (i, set_last_used k (Some (now e)))),
         set_api_keys db (<[i := set_last_used k (Some (now e))]> (api_keys db)))
    | Some x => (if is_DoesNotExist x then inr None else inl x, db)
    end.
Proof.
  intros Huniq Hp Hh Hi Hact. unfold validate_key.
  rewrite (prefix_nonempty _ Hp). unfold hash_key, update_last_used. run.
  rewrite Hh.
  rewrite (objects_get_one _ db i k); [| done | done |].
  - simpl. destruct (write_fault e) as [x|]; simpl.
    + by destruct x.
    + by rewrite (alter_last_used _ _ k).
  - intros j k' Hj [Hk' _]. simpl in Hk'. by apply (Huniq j k').
Qed.

(** No active row carries the digest: no match, nothing written. *)
Lemma validate_key_unknown e raw_key db h :
  sha256_hexdigest raw_key = inr h →
  (∀ i k, api_keys db !! i = Some k → key_hash k = h → is_active k = false) →
  validate_key e raw_key db = (inr None, db).
Proof.
  intros Hh Hno. unfold validate_key.
  destruct (bool_decide (raw_key = "") || negb (String.prefix "cp_" raw_key)); [done|].
  unfold hash_key. run. rewrite Hh.
  rewrite objects_get_none; [done|].
  intros i k Hi [Hk Ha]. simpl in *. rewrite (Hno i k Hi Hk) in Ha. done.
Qed.

(** What a match tells about the table before the call. *)
Lemma validate_key_match e raw_key db r db' :
  validate_key e raw_key db = (inr (Some r), db') →
  ∃ k0,
    String.prefix "cp_" raw_key = true ∧
    sha256_hexdigest raw_key = inr (key_hash k0) ∧
    api_keys db !! r.1 = Some k0 ∧
    is_active k0 = true ∧
    write_fault e = None ∧
    r.2 = set_last_used k0 (Some (now e)) ∧
    db' = set_api_keys db (<[r.1 := r.2]> (api_keys db)).
Proof.
  unfold validate_key.
  destruct (bool_decide (raw_key = "") || negb (String.prefix "cp_" raw_key)) eqn:Hg;
    [done|].
  apply orb_false_iff in Hg as [_ Hp]. apply negb_false_iff in Hp.
  unfold hash_key, update_last_used. run.
  destruct (sha256_hexdigest raw_key) as [x|h] eqn:Hh; [done|].
  destruct (objects_get _ db) as [[x|[i k0]] db1] eqn:Hget.
  { by destruct x. }
  apply objects_get_returns in Hget as (-> & Hi & Hk & Ha). simpl in *.
  destruct (write_fault e) as [x|] eqn:Hw; simpl.
  { by destruct x. }
  intros [= <- <-]. exists k0. simpl. subst h.
  repeat split; try done. by rewrite (alter_last_used _ _ k0).
Qed.

(** ** Lookups by id and owner *)

Lemma objects_get_owned_found a db i k :
  api_keys db !! i = Some k → admin k = a →
  objects_get_owned (JInt i) a db = (inr (i, k), db).
Proof.
  intros Hi Ha. unfold objects_get_owned. run.
  apply objects_get_one; [done|done|]. by intros j k' _ [Hj _].
Qed.


Lemma objects_get_owned_null a db :
  objects_get_owned JNull a db = (inl DoesNotExist, db).
Proof. done. Qed.

Lemma objects_get_owned_refused a db v x :
  id_lookup_value v = inl x →
  objects_get_owned v a db = (inl x, db) ∧ x = FieldError v.
Proof.
  intros Hv. unfold objects_get_owned. run. rewrite Hv. split; [done|].
  destruct v; simpl in Hv; try congruence.
  destruct (py_int s); congruence.
Qed.

(** ** [revokeKey] and [deleteKey] *)

Lemma revokeKey_owned a e items db i k :
  assoc "keyID" items = Some (JInt i) →
  api_keys db !! i = Some k → admin k = a →
  revokeKey a e (JDict items) db =
    match write_fault e with
    | None =>
        (JDict [("status", JInt 1); ("is_active", JBool (negb (is_active k)))],
         set_api_keys db (<[i := set_is_active k (negb (is_active k))]> (api_keys db)))
    | Some x => (not_found_or_message x, db)
    end.
Proof.
  intros Hid Hi Ha. unfold revokeKey, revokeKey_try, dict_get. run.
  rewrite Hid. simpl. rewrite (objects_get_owned_found a db i k Hi Ha). simpl.
  by destruct (write_fault e).
Qed.




Lemma cp_prefix tok : String.prefix "cp_" ("cp_" +:+ tok) = true.
Proof. simpl. by destruct tok. Qed.

(** ** Claims *)

(** C1. After a successful [createKey], handing the raw secret of the
    response to [validate_key] (the write of [last_used] going through)
    returns a match: the instance has the id of the response, it is the row
    the call inserted, and its owner is the caller. *)
Theorem create_then_validate a e data db resp db' e' :
  createKey a e data db = (resp, db') →
  field "status" resp = Some (JInt 1) →
  write_fault e' = None →
  ∃ raw_key i row db'',
    field "key" resp = Some (JStr raw_key) ∧
    field "id" resp = Some (JInt i) ∧
    api_keys db !! i = None ∧
    api_keys db' !! i = Some row ∧
    admin row = a ∧
    validate_key e' raw_key db' =
      (inr (Some (i, set_last_used row (Some (now e')))), db'') ∧
    admin (set_last_used row (Some (now e'))) = a.
Proof.
  intros Hc Hst Hw.
  destruct (createKey_outcome a e data db) as
    [(x & Hx)|(items & tok & h & n & Hd & Htok & Hh & Hn & Hid & Hfree & _ & Hok)].
  { rewrite Hx in Hc. injection Hc as <- <-. discriminate Hst. }
  rewrite Hok in Hc. injection Hc as <- <-.
  set (row := new_row e a ("cp_" +:+ tok) h n) in *.
  eexists ("cp_" +:+ tok), (next_id db), row, _.
  repeat split; try done.
  - simpl. apply lookup_insert_eq.
  - rewrite (validate_key_found e' _ _ (next_id db) row).
    + by rewrite Hw.
    + simpl. intros j k' Hj Hk'. destruct (decide (j = next_id db)) as [|Hne]; [done|].
      rewrite lookup_insert_ne in Hj by done. by destruct (Hfree j k' Hj).
    + apply cp_prefix.
    + done.
    + simpl. apply lookup_insert_eq.
    + done.
Qed.

(** C2. [validate_key] returns None, and writes nothing, for the empty string,
    for a string that does not start with cp_, for a secret whose digest no
    row carries, and for a secret whose digest is that of an inactive row;
    when it does return a match, the row was in the table with that digest
    and is_active = True. *)
Theorem validate_key_no_match e raw_key db :
  hash_unique db →
  (raw_key = "" → validate_key e raw_key db = (inr None, db)) ∧
  (String.prefix "cp_" raw_key = false → validate_key e raw_key db = (inr None, db)) ∧
  (∀ h, sha256_hexdigest raw_key = inr h →
        (∀ i k, api_keys db !! i = Some k → key_hash k ≠ h) →
        validate_key e raw_key db = (inr None, db)) ∧
  (∀ i k, sha256_hexdigest raw_key = inr (key_hash k) →
          api_keys db !! i = Some k → is_active k = false →
          validate_key e raw_key db = (inr None, db)) ∧
  (∀ r db', validate_key e raw_key db = (inr (Some r), db') →
            ∃ k0, api_keys db !! r.1 = Some k0 ∧
                  sha256_hexdigest raw_key = inr (key_hash k0) ∧
                  is_active k0 = true ∧ is_active r.2 = true).
Proof.
  intros Huniq. repeat split.
  - by intros ->.
  - intros Hp. unfold validate_key. by rewrite Hp, orb_true_r.
  - intros h Hh Hno. apply (validate_key_unknown e raw_key db h Hh).
    intros i k Hi Hk. by destruct (Hno i k Hi).
  - intros i k Hh Hi Hina. apply (validate_key_unknown e raw_key db _ Hh).
    intros j k' Hj Hk'. assert (j = i) as -> by by apply (Huniq j i k' k).
    congruence.
  - intros r db' Hv.
    destruct (validate_key_match e raw_key db r db' Hv)
      as (k0 & _ & Hh & Hi & Ha & _ & Hr & _).
    exists k0. repeat split; try done. by rewrite Hr.
Qed.

(** C3, as the code has it. For an active row whose secret is presented:
    when the write of [last_used] goes through, [validate_key] returns the
    row; when that write raises, [validate_key] does not return the row: it
    raises what the write raised (only APIKey.DoesNotExist is caught, and
    answered with None), and the table is left as it was. *)
Theorem validate_key_touch_failure e raw_key db i k :
  hash_unique db →
  String.prefix "cp_" raw_key = true →
  sha256_hexdigest raw_key = inr (key_hash k) →
  api_keys db !! i = Some k →
  is_active k = true →
  (write_fault e = None →
     validate_key e raw_key db =
       (inr (Some (i, set_last_used k (Some (now e)))),
        set_api_keys db (<[i := set_last_used k (Some (now e))]> (api_keys db)))) ∧
  (∀ x, write_fault e = Some x →
     validate_key e raw_key db =
       (if is_DoesNotExist x then inr None else inl x, db)).
Proof.
  intros Huniq Hp Hh Hi Ha.
  assert (Hv := validate_key_found e raw_key db i k).
  rewrite Hv; try done.
  - split; [by intros ->|]. by intros x ->.
  - intros j k' Hj Hk'. by apply (Huniq j i k' k).
Qed.

(** C4. [createKey] with a dict as payload: when the entropy source raises,
    or the digest raises, the response is the dict with status 0 and, as
    error_message, the text of that exception, and the table is unchanged.
    For every call: either the response is that dict, status 0 with the text
    of an exception, and the table is unchanged, or the response has status 1
    and carries the raw secret of the one row that was added, a complete row:
    its key_hash is the digest of that secret, its key_prefix the prefix of
    that secret, its name what the column stores for the name of the payload
    (Unnamed Key when the payload has none), its owner the caller. *)
Theorem createKey_all_or_nothing a e data db :
  (∀ items x, data = JDict items → token_urlsafe e = inl x →
     createKey a e data db =
       (JDict [("status", JInt 0); ("error_message", JStr (exn_str x))], db)) ∧
  (∀ items tok x, data = JDict items → token_urlsafe e = inr tok →
     sha256_hexdigest ("cp_" +:+ tok) = inl x →
     createKey a e data db =
       (JDict [("status", JInt 0); ("error_message", JStr (exn_str x))], db)) ∧
  ((∃ x resp, createKey a e data db = (resp, db) ∧
              resp = JDict [("status", JInt 0); ("error_message", JStr (exn_str x))] ∧
              field "status" resp = Some (JInt 0) ∧
              field "error_message" resp = Some (JStr (exn_str x)) ∧
              field "key" resp = None) ∨
   (∃ resp raw_key i row items,
      createKey a e data db =
        (resp, mkDB (<[i := row]> (api_keys db)) (next_id db + 1)) ∧
      field "status" resp = Some (JInt 1) ∧
      field "key" resp = Some (JStr raw_key) ∧
      field "id" resp = Some (JInt i) ∧
      api_keys db !! i = None ∧
      sha256_hexdigest raw_key = inr (key_hash row) ∧
      key_prefix row = get_prefix raw_key ∧
      admin row = a ∧
      created_at row = now e ∧
      last_used row = None ∧
      is_active row = true ∧
      data = JDict items ∧
      char_column "name" (from_option id (JStr "Unnamed Key") (assoc "name" items))
        = inr (name row) ∧
      field "name" resp
        = Some (from_option id (JStr "Unnamed Key") (assoc "name" items)) ∧
      field "key_prefix" resp = Some (JStr (key_prefix row)) ∧
      field "created_at" resp = Some (JStr (isoformat (created_at row))))).
Proof.
  repeat split.
  - intros items x -> Htok. unfold createKey, create_key, generate_key, dict_get.
    run. by rewrite Htok.
  - intros items tok x -> Htok Hh.
    unfold createKey, create_key, generate_key, hash_key, dict_get.
    run. by rewrite Htok, Hh.
  - destruct (createKey_outcome a e data db) as
      [(x & Hx)|(items & tok & h & n & Hd & Htok & Hh & Hn & Hid & Hfree & _ & Hok)].
    { left. exists x. eexists. by split. }
    right. eexists _, ("cp_" +:+ tok), (next_id db), _, items.
    rewrite Hok. repeat split; done.
Qed.


(** ** Sorting commutes with a map that keeps the order *)

Section merge_sort_fmap.
Context {A : Type} (R : relation A) `{!∀ x y, Decision (R x y)} (f : A → A).
Hypothesis Hf : ∀ x y, R (f x) (f y) ↔ R x y.

Definition stack_fmap (st : list (option (list A))) : list (option (list A)) :=
  (λ o : option (list A), (λ l : list A, f <$> l) <$> o) <$> st.

Lemma list_merge_fmap l1 l2 :
  list_merge R (f <$> l1) (f <$> l2) = f <$> list_merge R l1 l2.
Proof.
  revert l2. induction l1 as [|x1 l1 IH1]; intros l2.
  { by rewrite fmap_nil, !list_merge_nil_l. }
  induction l2 as [|x2 l2 IH2].
  { by rewrite fmap_nil, !list_merge_nil_r. }
  rewrite !fmap_cons, !list_merge_cons.
  destruct (decide (R x1 x2)) as [H12|H12], (decide (R (f x1) (f x2))) as [H12'|H12'].
  - rewrite fmap_cons. f_equal. by rewrite <- IH1, fmap_cons.
  - destruct H12'. by apply Hf.
  - destruct H12. by apply Hf.
  - rewrite fmap_cons. f_equal. by rewrite <- IH2, fmap_cons.
Qed.

Lemma merge_list_to_stack_fmap st l :
  merge_list_to_stack R (stack_fmap st) (f <$> l)
  = stack_fmap (merge_list_to_stack R st l).
Proof.
  revert l. induction st as [|[l'|] st IH]; intros l; try done.
  unfold stack_fmap in *. cbn. f_equal. rewrite list_merge_fmap. apply IH.
Qed.

Lemma merge_stack_fmap st :
  merge_stack R (stack_fmap st) = f <$> merge_stack R st.
Proof.
  induction st as [|[l'|] st IH]; try done.
  unfold stack_fmap in *. cbn. rewrite IH. apply list_merge_fmap.
Qed.

Lemma merge_sort_aux_fmap st l :
  merge_sort_aux R (stack_fmap st) (f <$> l) = f <$> merge_sort_aux R st l.
Proof.
  revert st. induction l as [|x l IH]; intros st.
  { apply merge_stack_fmap. }
  cbn. rewrite <- IH. f_equal. apply (merge_list_to_stack_fmap st [x]).
Qed.

Lemma merge_sort_fmap l : merge_sort R (f <$> l) = f <$> merge_sort R l.
Proof. apply (merge_sort_aux_fmap []). Qed.

End merge_sort_fmap.

Lemma StronglySorted_lookup_lt {A} (R : relation A) (l : list A) i j x y :
  StronglySorted R l → l !! i = Some x → l !! j = Some y → (i < j)%nat → R x y.
Proof.
  intros Hs. revert i j. induction Hs as [|a l Hs IH Hall]; intros i j Hi Hj Hij.
  { done. }
  destruct j as [|j]; [lia|]. simpl in Hj. destruct i as [|i].
  - injection Hi as <-. by apply (Forall_lookup_1 _ _ _ _ Hall Hj).
  - simpl in Hi. apply (IH i j); [done|done|lia].
Qed.

(** ** What [listKeys] does not read *)

Lemma substring_0_short s n :
  (String.length s ≤ n)%nat → substring 0 n s = s.
Proof.
  revert n. induction s as [|c s IH]; intros [|n] Hn; simpl in *; try done; try lia.
  f_equal. apply IH. lia.
Qed.

Lemma substring_0_length s n :
  (n ≤ String.length s)%nat → String.length (substring 0 n s) = n.
Proof.
  revert n. induction s as [|c s IH]; intros [|n] Hn; simpl in *; try done; try lia.
  f_equal. apply IH. lia.
Qed.

Lemma get_prefix_substring raw_key : get_prefix raw_key = substring 0 12 raw_key.
Proof.
  unfold get_prefix. case_bool_decide; [done|].
  symmetry. apply substring_0_short. lia.
Qed.

(** The answer of [listKeys] is the same on a table whose rows differ from
    those of [db] in key_hash only. *)
Lemma listKeys_rehash a db (g : APIKey → APIKey) :
  (∀ k, g k = mkAPIKey (admin k) (key_hash (g k)) (key_prefix k) (name k)
                       (created_at k) (last_used k) (is_active k)) →
  (listKeys a (mkDB (g <$> api_keys db) (next_id db))).1 = (listKeys a db).1.
Proof.
  intros Hg.
  assert (Hadm : ∀ k, admin (g k) = admin k) by (intros k; by rewrite (Hg k)).
  assert (Hcre : ∀ k, created_at (g k) = created_at k) by (intros k; by rewrite (Hg k)).
  assert (Hsum : ∀ r, key_summary (prod_map id g r) = key_summary r).
  { intros [i k]. unfold key_summary. simpl. by rewrite (Hg k). }
  assert (Hf : filter (λ r : instance, admin r.2 = a) (g <$> api_keys db)
               = g <$> filter (λ r : instance, admin r.2 = a) (api_keys db)).
  { apply map_eq. intros i. apply option_eq. intros x.
    rewrite lookup_fmap, fmap_Some, map_lookup_filter_Some, lookup_fmap, fmap_Some.
    setoid_rewrite map_lookup_filter_Some. simpl. split.
    - intros [(k & Hk & ->) Ha]. exists k. rewrite Hadm in Ha. done.
    - intros (k & [Hk Ha] & ->). split; [by exists k|]. by rewrite Hadm. }
  assert (Hl : key_summary <$> merge_sort newer_first
                 (select (λ r, admin r.2 = a) (mkDB (g <$> api_keys db) (next_id db)))
               = key_summary <$> merge_sort newer_first
                   (select (λ r, admin r.2 = a) db)).
  { unfold select. simpl. rewrite Hf, map_to_list_fmap.
    rewrite (merge_sort_fmap newer_first (prod_map id g)).
    - rewrite <- list_fmap_compose. apply list_fmap_ext. intros i r _. apply Hsum.
    - intros [i1 k1] [i2 k2]. unfold newer_first. simpl. by rewrite !Hcre. }
  unfold listKeys, objects_filter_admin. run. by rewrite Hl.
Qed.

(** Had a created key been given another secret with the same first 12
    characters, [listKeys] would answer the same. *)
Lemma listKeys_like_secrets a b e1 e2 data db0 resp1 resp2 db1 db2 s1 s2 :
  createKey b e1 data db0 = (resp1, db1) →
  createKey b e2 data db0 = (resp2, db2) →
  field "key" resp1 = Some (JStr s1) →
  field "key" resp2 = Some (JStr s2) →
  now e1 = now e2 →
  substring 0 12 s1 = substring 0 12 s2 →
  (listKeys a db2).1 = (listKeys a db1).1.
Proof.
  intros Hc1 Hc2 Hk1 Hk2 Hnow Hpre.
  destruct (createKey_outcome b e1 data db0) as
    [(x & Hx)|(items & tok1 & h1 & n1 & Hd & Htok1 & Hh1 & Hn1 & Hid & Hfree1 & _ & Hok1)].
  { rewrite Hx in Hc1. injection Hc1 as <- <-. discriminate Hk1. }
  destruct (createKey_outcome b e2 data db0) as
    [(x & Hx)|(items' & tok2 & h2 & n2 & Hd' & Htok2 & Hh2 & Hn2 & _ & _ & _ & Hok2)].
  { rewrite Hx in Hc2. injection Hc2 as <- <-. discriminate Hk2. }
  rewrite Hok1 in Hc1. rewrite Hok2 in Hc2.
  injection Hc1 as <- <-. injection Hc2 as <- <-.
  simpl in Hk1, Hk2. injection Hk1 as <-. injection Hk2 as <-.
  rewrite Hd in Hd'. injection Hd' as <-. rewrite Hn1 in Hn2. injection Hn2 as <-.
  set (g := λ k : APIKey,
         if decide (key_hash k = h1)
         then mkAPIKey (admin k) h2 (key_prefix k) (name k) (created_at k)
                       (last_used k) (is_active k)
         else k).
  assert (Hg : ∀ k, g k = mkAPIKey (admin k) (key_hash (g k)) (key_prefix k) (name k)
                              (created_at k) (last_used k) (is_active k)).
  { intros k. unfold g. destruct (decide (key_hash k = h1)); by destruct k. }
  assert (Hdb : g <$> <[next_id db0 := new_row e1 b ("cp_" +:+ tok1) h1 n1]> (api_keys db0)
                = <[next_id db0 := new_row e2 b ("cp_" +:+ tok2) h2 n1]> (api_keys db0)).
  { rewrite fmap_insert. f_equal.
    - unfold g, new_row. simpl. rewrite decide_True by done.
      by rewrite !get_prefix_substring, Hpre, Hnow.
    - apply map_eq. intros i. rewrite lookup_fmap.
      destruct (api_keys db0 !! i) as [k|] eqn:Hi; [|done]. simpl. f_equal.
      unfold g. rewrite decide_False; [done|]. by apply (Hfree1 i). }
  rewrite <- (listKeys_rehash a
                (mkDB (<[next_id db0 := new_row e1 b ("cp_" +:+ tok1) h1 n1]> (api_keys db0))
                      (next_id db0 + 1)) g Hg).
  simpl. by rewrite Hdb.
Qed.

#[local] Instance newer_first_total : Total newer_first.
Proof. intros r1 r2. unfold newer_first. lia. Qed.

#[local] Instance newer_first_trans : Transitive newer_first.
Proof. intros r1 r2 r3. unfold newer_first. lia. Qed.

(** C6. [listKeys] answers status 1 with the summaries of exactly the rows
    of the owner, each once, most recently created first: an entry that
    stands before another has a created_at that is not smaller.  A summary
    has the six fields id, name, key_preview (the prefix followed by three
    dots), created_at, last_used (null when never used) and is_active.  No
    field is read from key_hash: the answer is the same on any table whose
    rows differ in key_hash only, and it would be the same had a created
    key been given any other secret with the same first 12 characters, so
    the answer does not tell the secret.  The table is not written. *)
Theorem listKeys_owner_only a db :
  ∃ keys : list instance,
    listKeys a db =
      (JDict [("status", JInt 1); ("keys", JList (key_summary <$> keys))], db) ∧
    (∀ r, r ∈ keys ↔ api_keys db !! r.1 = Some r.2 ∧ admin r.2 = a) ∧
    NoDup keys ∧
    StronglySorted newer_first keys ∧
    (∀ r, key_summary r =
            JDict [("id", JInt r.1);
                   ("name", JStr (name r.2));
                   ("key_preview", JStr (key_prefix r.2 +:+ "..."));
                   ("created_at", JStr (isoformat (created_at r.2)));
                   ("last_used", from_option (JStr ∘ isoformat) JNull (last_used r.2));
                   ("is_active", JBool (is_active r.2))]) ∧
    (∀ i k h,
       key_summary (i, mkAPIKey (admin k) h (key_prefix k) (name k)
                                (created_at k) (last_used k) (is_active k)) =
       key_summary (i, k)) ∧
    (∀ i j r1 r2,
       keys !! i = Some r1 → keys !! j = Some r2 → (i < j)%nat →
       (created_at r2.2 ≤ created_at r1.2)%Z) ∧
    (∀ g : APIKey → APIKey,
       (∀ k, g k = mkAPIKey (admin k) (key_hash (g k)) (key_prefix k) (name k)
                            (created_at k) (last_used k) (is_active k)) →
       (listKeys a (mkDB (g <$> api_keys db) (next_id db))).1 = (listKeys a db).1) ∧
    (∀ b e1 e2 data db0 resp1 resp2 db2 s1 s2,
       createKey b e1 data db0 = (resp1, db) →
       createKey b e2 data db0 = (resp2, db2) →
       field "key" resp1 = Some (JStr s1) →
       field "key" resp2 = Some (JStr s2) →
       now e1 = now e2 →
       substring 0 12 s1 = substring 0 12 s2 →
       (listKeys a db2).1 = (listKeys a db).1).
Proof.
  exists (merge_sort newer_first (select (λ r, admin r.2 = a) db)).
  assert (Hsorted : StronglySorted newer_first
                      (merge_sort newer_first (select (λ r, admin r.2 = a) db)))
    by apply (StronglySorted_merge_sort _).
  split; [done|]. split; [|split; [|split; [|split; [|split; [|split; [|split]]]]]].
  - intros r. rewrite merge_sort_Permutation. apply elem_of_select.
  - rewrite merge_sort_Permutation. apply NoDup_map_to_list.
  - exact Hsorted.
  - intros [i k]. unfold key_summary. simpl. by destruct (last_used k).
  - done.
  - intros i j r1 r2 Hi Hj Hij.
    apply (StronglySorted_lookup_lt newer_first _ i j r1 r2 Hsorted Hi Hj Hij).
  - apply listKeys_rehash.
  - intros b e1 e2 data db0 resp1 resp2 db2 s1 s2.
    apply listKeys_like_secrets.
Qed.

(** C7. For a key of the caller (writes going through), [revokeKey] answers
    with the negation of the is_active it found and stores it; a second call
    answers with the original value, and the table is then the original
    table. *)
Theorem toggle_twice a e1 e2 items db i k :
  assoc "keyID" items = Some (JInt i) →
  api_keys db !! i = Some k → admin k = a →
  write_fault e1 = None → write_fault e2 = None →
  ∃ db1,
    revokeKey a e1 (JDict items) db =
      (JDict [("status", JInt 1); ("is_active", JBool (negb (is_active k)))], db1) ∧
    (is_active <$> api_keys db1 !! i) = Some (negb (is_active k)) ∧
    revokeKey a e2 (JDict items) db1 =
      (JDict [("status", JInt 1); ("is_active", JBool (is_active k))], db).
Proof.
  intros Hid Hi Ha Hw1 Hw2.
  set (k1 := set_is_active k (negb (is_active k))).
  exists (set_api_keys db (<[i := k1]> (api_keys db))).
  rewrite (revokeKey_owned a e1 items db i k Hid Hi Ha), Hw1.
  split; [done|]. split.
  { simpl. by rewrite lookup_insert_eq. }
  rewrite (revokeKey_owned a e2 items _ i k1 Hid); [| apply lookup_insert_eq | done].
  rewrite Hw2. simpl. rewrite negb_involutive. f_equal.
  destruct db as [t n]. unfold set_api_keys. simpl in *. f_equal.
  rewrite insert_insert_eq. apply insert_id. rewrite Hi. by destruct k.
Qed.

(** C8, as the code has it. For [revokeKey] and [deleteKey]: a payload that
    is no dict is answered with status 0 and the text of the exception it
    caused, and so is a payload whose keyID is a list, a dict, a float that
    is not finite, or a string that int() does not take. A keyID that is a
    bool, a finite float or a string that int() takes is turned into an
    integer and the payload is handled as the one with that integer: true,
    1.5 and the string of 1 all name key 1. A payload that has no keyID (or
    has null there) is answered as a key that does not exist, with the text
    API key not found. Nothing is written in the cases answered with
    status 0. *)
Theorem malformed_payload a e data db :
  ((∀ items, data ≠ JDict items) →
     revokeKey a e data db =
       (JDict [("status", JInt 0);
               ("error_message", JStr (exn_str (AttributeError data)))], db) ∧
     deleteKey a e data db =
       (JDict [("status", JInt 0);
               ("error_message", JStr (exn_str (AttributeError data)))], db)) ∧
  (∀ items v, data = JDict items → assoc "keyID" items = Some v →
     ((∃ l, v = JList l) ∨ (∃ d, v = JDict d) ∨ v = JNonFinite ∨
      (∃ s, v = JStr s ∧ py_int s = None)) →
     revokeKey a e data db =
       (JDict [("status", JInt 0);
               ("error_message", JStr (exn_str (FieldError v)))], db) ∧
     deleteKey a e data db =
       (JDict [("status", JInt 0);
               ("error_message", JStr (exn_str (FieldError v)))], db)) ∧
  (∀ items v n, data = JDict items → assoc "keyID" items = Some v →
     (v = JInt n ∨ (∃ b : bool, v = JBool b ∧ n = if b then 1 else 0) ∨
      (∃ x, v = JFloat x ∧ n = float_to_int x) ∨
      (∃ s, v = JStr s ∧ py_int s = Some n)) →
     revokeKey a e data db = revokeKey a e (JDict [("keyID", JInt n)]) db ∧
     deleteKey a e data db = deleteKey a e (JDict [("keyID", JInt n)]) db) ∧
  (∀ items, data = JDict items →
     assoc "keyID" items = None ∨ assoc "keyID" items = Some JNull →
     revokeKey a e data db =
       (JDict [("status", JInt 0); ("error_message", JStr "API key not found")], db) ∧
     deleteKey a e data db =
       (JDict [("status", JInt 0); ("error_message", JStr "API key not found")], db)).
Proof.
  split; [|split; [|split]].
  - intros Hnd. destruct data as [| | | | | | |items]; try done.
    by destruct (Hnd items).
  - intros items v -> Hv Hbad.
    assert (Hx : id_lookup_value v = inl (FieldError v)).
    { destruct Hbad as [(l & ->)|[(d & ->)|[->|(s & -> & Hs)]]]; simpl; try done.
      by rewrite Hs. }
    destruct (objects_get_owned_refused a db v _ Hx) as [Hg _].
    unfold revokeKey, revokeKey_try, deleteKey, deleteKey_try, dict_get. run.
    rewrite Hv. simpl. by rewrite Hg.
  - intros items v n -> Hv Hok.
    assert (Hn : id_lookup_value v = inr (Some n)).
    { destruct Hok as [->|[(b & -> & ->)|[(x & -> & ->)|(s & -> & Hs)]]]; simpl;
        try done. by rewrite Hs. }
    unfold revokeKey, revokeKey_try, deleteKey, deleteKey_try, dict_get,
      objects_get_owned. run.
    rewrite Hv. simpl. by rewrite Hn.
  - intros items -> Hv.
    unfold revokeKey, revokeKey_try, deleteKey, deleteKey_try, dict_get. run.
    by destruct Hv as [-> | ->].
Qed.

(** C9. [get_prefix] returns the first 12 characters of a string of 12 or
    more, and the whole string when it is shorter; the key_prefix stored by
    a successful [createKey], and the one in its response, are the first 12
    characters of the raw secret of the response. *)
Theorem get_prefix_leading_12 raw_key :
  ((12 ≤ String.length raw_key)%nat →
     get_prefix raw_key = substring 0 12 raw_key ∧
     String.length (get_prefix raw_key) = 12%nat) ∧
  ((String.length raw_key < 12)%nat → get_prefix raw_key = raw_key) ∧
  (∀ a e data db resp db',
     createKey a e data db = (resp, db') →
     field "key" resp = Some (JStr raw_key) →
     ∃ i row,
       field "id" resp = Some (JInt i) ∧
       api_keys db' !! i = Some row ∧
       key_prefix row = substring 0 12 raw_key ∧
       field "key_prefix" resp = Some (JStr (substring 0 12 raw_key))).
Proof.
  split; [|split].
  - intros Hl. rewrite get_prefix_substring. split; [done|].
    by apply substring_0_length.
  - intros Hl. unfold get_prefix. case_bool_decide; [lia|done].
  - intros a e data db resp db' Hc Hkey.
    destruct (createKey_outcome a e data db) as
      [(x & Hx)|(items & tok & h & n & Hd & Htok & Hh & Hn & Hid & Hfree & _ & Hok)].
    { rewrite Hx in Hc. injection Hc as <- <-. discriminate Hkey. }
    rewrite Hok in Hc. injection Hc as <- <-.
    simpl in Hkey. injection Hkey as <-.
    eexists (next_id db), _. split; [done|]. split.
    { simpl. apply lookup_insert_eq. }
    simpl. by rewrite get_prefix_substring.
Qed.

(** C10. A [validate_key] that returns a match writes the current time to
    last_used of the matched row and nothing else: the other columns of that
    row, every other row, and the counter of the table are as before. *)
Theorem validate_key_frame e raw_key db r db' :
  validate_key e raw_key db = (inr (Some r), db') →
  ∃ k0,
    api_keys db !! r.1 = Some k0 ∧
    api_keys db' !! r.1 = Some r.2 ∧
    last_used r.2 = Some (now e) ∧
    is_active r.2 = is_active k0 ∧
    key_hash r.2 = key_hash k0 ∧
    key_prefix r.2 = key_prefix k0 ∧
    name r.2 = name k0 ∧
    created_at r.2 = created_at k0 ∧
    admin r.2 = admin k0 ∧
    (∀ j, j ≠ r.1 → api_keys db' !! j = api_keys db !! j) ∧
    next_id db' = next_id db.
Proof.
  intros Hv.
  destruct (validate_key_match e raw_key db r db' Hv)
    as (k0 & _ & _ & Hi & _ & _ & Hr & ->).
  exists k0. rewrite Hr. simpl. repeat split; try done.
  - rewrite <- Hr. apply lookup_insert_eq.
  - intros j Hj. by apply lookup_insert_ne.
Qed.

(** ** The uniqueness of key_hash is kept by every operation *)

Lemma hash_unique_createKey a e data db :
  hash_unique db → hash_unique (createKey a e data db).2.
Proof.
  intros Hu.
  destruct (createKey_outcome a e data db) as
    [(x & ->)|(items & tok & h & n & Hd & Htok & Hh & Hn & Hid & Hfree & _ & ->)];
    [done|].
  intros i j ki kj. simpl.
  destruct (decide (i = next_id db)) as [->|Hi], (decide (j = next_id db)) as [->|Hj];
    [done|..].
  - rewrite lookup_insert_eq, lookup_insert_ne by done.
    intros [= <-] Hkj Hh'. simpl in Hh'. by destruct (Hfree j kj Hkj).
  - rewrite lookup_insert_eq, lookup_insert_ne by done.
    intros Hki [= <-] Hh'. simpl in Hh'. by destruct (Hfree i ki Hki).
  - rewrite !lookup_insert_ne by done. apply Hu.
Qed.

Lemma hash_unique_update db i k k' :
  hash_unique db → api_keys db !! i = Some k → key_hash k' = key_hash k →
  hash_unique (set_api_keys db (<[i := k']> (api_keys db))).
Proof.
  intros Hu Hi Hh j1 j2 k1 k2. simpl.
  destruct (decide (j1 = i)) as [->|H1], (decide (j2 = i)) as [->|H2]; [done|..].
  - rewrite lookup_insert_eq, lookup_insert_ne by done.
    intros [= <-] H2' Hk. symmetry. apply (Hu j2 i k2 k); congruence.
  - rewrite lookup_insert_eq, lookup_insert_ne by done.
    intros H1' [= <-] Hk. apply (Hu j1 i k1 k); congruence.
  - rewrite !lookup_insert_ne by done. apply Hu.
Qed.

Lemma hash_unique_delete db i :
  hash_unique db → hash_unique (set_api_keys db (delete i (api_keys db))).
Proof.
  intros Hu j1 j2 k1 k2. simpl.
  intros [_ H1]%lookup_delete_Some [_ H2]%lookup_delete_Some. by apply Hu.
Qed.

Lemma hash_unique_single i k n : hash_unique (mkDB {[i := k]} n).
Proof.
  intros j1 j2 k1 k2. simpl.
  intros [-> _]%lookup_singleton_Some [-> _]%lookup_singleton_Some. done.
Qed.

Lemma hash_unique_validate_key e raw_key db :
  hash_unique db → hash_unique (validate_key e raw_key db).2.
Proof.
  intros Hu. destruct (validate_key e raw_key db) as [[x|[r|]] db'] eqn:Hv.
  - revert Hv. unfold validate_key.
    destruct (bool_decide (raw_key = "") || negb (String.prefix "cp_" raw_key)); [done|].
    unfold hash_key, update_last_used. run.
    destruct (sha256_hexdigest raw_key) as [y|h]; [by intros [= _ <-]|].
    destruct (objects_get _ db) as [[y|r] db1] eqn:Hget.
    + unfold objects_get in Hget.
      destruct (select _ db) as [|? [|??]]; simplify_eq; simpl; by intros [= _ <-].
    + apply objects_get_returns in Hget as (-> & _).
      destruct (write_fault e) as [y|]; simpl; [|done].
      destruct y; simpl; by intros [= _ <-].
  - destruct (validate_key_match e raw_key db r db' Hv)
      as (k0 & _ & _ & Hi & _ & _ & Hr & ->).
    apply (hash_unique_update db r.1 k0); [done|done|]. by rewrite Hr.
  - revert Hv. unfold validate_key.
    destruct (bool_decide (raw_key = "") || negb (String.prefix "cp_" raw_key));
      [by intros [= <-]|].
    unfold hash_key, update_last_used. run.
    destruct (sha256_hexdigest raw_key) as [y|h]; [done|].
    destruct (objects_get _ db) as [[y|r] db1] eqn:Hget.
    + unfold objects_get in Hget.
      destruct (select _ db) as [|? [|??]]; simplify_eq; simpl; by intros [= <-].
    + apply objects_get_returns in Hget as (-> & _).
      destruct (write_fault e) as [y|]; simpl; [|done].
      destruct y; simpl; by intros [= <-].
Qed.

Lemma objects_get_owned_returns key_id a db r db' :
  objects_get_owned key_id a db = (inr r, db') →
  db' = db ∧ api_keys db !! r.1 = Some r.2 ∧ admin r.2 = a.
Proof.
  unfold objects_get_owned. run.
  destruct (id_lookup_value key_id) as [x|[i|]]; try done.
  intros (-> & Hr & _ & Ha)%objects_get_returns. done.
Qed.

Lemma objects_get_owned_raises key_id a db x db' :
  objects_get_owned key_id a db = (inl x, db') → db' = db.
Proof.
  unfold objects_get_owned. run.
  destruct (id_lookup_value key_id) as [y|[i|]]; try by intros [= _ <-].
  unfold objects_get. destruct (select _ db) as [|? [|??]]; by intros [= _ <-].
Qed.

Lemma hash_unique_revokeKey a e data db :
  hash_unique db → hash_unique (revokeKey a e data db).2.
Proof.
  intros Hu. unfold revokeKey, revokeKey_try, dict_get.
  destruct data as [| | | | | | |items]; try done. run.
  destruct (objects_get_owned _ a db) as [[x|r] db1] eqn:Hget.
  - by apply objects_get_owned_raises in Hget as ->.
  - apply objects_get_owned_returns in Hget as (-> & Hr & _).
    destruct (write_fault e); simpl; [done|].
    by apply (hash_unique_update db r.1 r.2).
Qed.

Lemma hash_unique_deleteKey a e data db :
  hash_unique db → hash_unique (deleteKey a e data db).2.
Proof.
  intros Hu. unfold deleteKey, deleteKey_try, dict_get.
  destruct data as [| | | | | | |items]; try done. run.
  destruct (objects_get_owned _ a db) as [[x|r] db1] eqn:Hget.
  - by apply objects_get_owned_raises in Hget as ->.
  - apply objects_get_owned_returns in Hget as (-> & Hr & _).
    destruct (write_fault e); simpl; [done|].
    by apply hash_unique_delete.
Qed.

(** ** Further results: what the operations keep *)

Lemma revokeKey_writes a e data db :
  (revokeKey a e data db).2 = db ∨
  ∃ i k, api_keys db !! i = Some k ∧ admin k = a ∧ write_fault e = None ∧
         revokeKey a e data db =
           (JDict [("status", JInt 1); ("is_active", JBool (negb (is_active k)))],
            set_api_keys db (<[i := set_is_active k (negb (is_active k))]> (api_keys db))).
Proof.
  unfold revokeKey, revokeKey_try, dict_get.
  destruct data as [| | | | | | |items]; try by left. run.
  destruct (objects_get_owned _ a db) as [[x|[i k]] db1] eqn:Hget.
  - left. by apply objects_get_owned_raises in Hget as ->.
  - apply objects_get_owned_returns in Hget as (-> & Hr & Ha). simpl in *.
    destruct (write_fault e) eqn:Hw; simpl; [by left|].
    right. by exists i, k.
Qed.

Lemma deleteKey_writes a e data db :
  (deleteKey a e data db).2 = db ∨
  ∃ i k, api_keys db !! i = Some k ∧ admin k = a ∧ write_fault e = None ∧
         deleteKey a e data db =
           (JDict [("status", JInt 1)], set_api_keys db (delete i (api_keys db))).
Proof.
  unfold deleteKey, deleteKey_try, dict_get.
  destruct data as [| | | | | | |items]; try by left. run.
  destruct (objects_get_owned _ a db) as [[x|[i k]] db1] eqn:Hget.
  - left. by apply objects_get_owned_raises in Hget as ->.
  - apply objects_get_owned_returns in Hget as (-> & Hr & Ha). simpl in *.
    destruct (write_fault e) eqn:Hw; simpl; [by left|].
    right. by exists i, k.
Qed.

Lemma createKey_keeps_rows a e data db j k :
  api_keys db !! j = Some k → api_keys (createKey a e data db).2 !! j = Some k.
Proof.
  intros Hj.
  destruct (createKey_outcome a e data db) as
    [(x & ->)|(items & tok & h & n & Hd & Htok & Hh & Hn & Hid & Hfree & _ & ->)];
    [done|].
  simpl. rewrite lookup_insert_ne; [done|]. intros <-. congruence.
Qed.

Lemma revokeKey_keeps_foreign_rows a e data db j k :
  api_keys db !! j = Some k → admin k ≠ a →
  api_keys (revokeKey a e data db).2 !! j = Some k.
Proof.
  intros Hj Ha.
  destruct (revokeKey_writes a e data db) as [->|(i & k0 & Hi & Ha0 & _ & ->)]; [done|].
  simpl. rewrite lookup_insert_ne; [done|]. intros <-. congruence.
Qed.

Lemma deleteKey_keeps_foreign_rows a e data db j k :
  api_keys db !! j = Some k → admin k ≠ a →
  api_keys (deleteKey a e data db).2 !! j = Some k.
Proof.
  intros Hj Ha.
  destruct (deleteKey_writes a e data db) as [->|(i & k0 & Hi & Ha0 & _ & ->)]; [done|].
  simpl. rewrite lookup_delete_ne; [done|]. intros <-. congruence.
Qed.

Lemma listKeys_of_select b db1 db2 :
  select (λ r, admin r.2 = b) db1 = select (λ r, admin r.2 = b) db2 →
  (listKeys b db1).1 = (listKeys b db2).1.
Proof. intros Hs. unfold listKeys, objects_filter_admin. run. by rewrite Hs. Qed.

(** X1. The uniqueness of key_hash holds of the empty table and is kept by
    [createKey], [validate_key], [revokeKey] and [deleteKey], whatever their
    input and outcome. *)
Theorem key_hash_stays_unique a e data raw_key db :
  hash_unique db →
  (∀ n, hash_unique (mkDB ∅ n)) ∧
  hash_unique (createKey a e data db).2 ∧
  hash_unique (validate_key e raw_key db).2 ∧
  hash_unique (revokeKey a e data db).2 ∧
  hash_unique (deleteKey a e data db).2.
Proof.
  intros Hu. split; [|split; [|split; [|split]]].
  - intros n i j ki kj Hi. simpl in Hi. by rewrite lookup_empty in Hi.
  - by apply hash_unique_createKey.
  - by apply hash_unique_validate_key.
  - by apply hash_unique_revokeKey.
  - by apply hash_unique_deleteKey.
Qed.

(** X2. [createKey] leaves every row of the table as it was; [revokeKey] and
    [deleteKey] called for owner [a] leave every row of another owner as it
    was, whatever the payload. *)
Theorem other_rows_untouched a e data db j k :
  api_keys db !! j = Some k →
  api_keys (createKey a e data db).2 !! j = Some k ∧
  (admin k ≠ a →
     api_keys (revokeKey a e data db).2 !! j = Some k ∧
     api_keys (deleteKey a e data db).2 !! j = Some k).
Proof.
  intros Hj. split; [by apply createKey_keeps_rows|].
  intros Ha. split.
  - by apply revokeKey_keeps_foreign_rows.
  - by apply deleteKey_keeps_foreign_rows.
Qed.

(** X3. What [listKeys] answers to owner [b] is the same before and after a
    [createKey], [revokeKey] or [deleteKey] called for another owner [a]. *)
Theorem other_listing_unchanged a b e data db :
  a ≠ b →
  (listKeys b (createKey a e data db).2).1 = (listKeys b db).1 ∧
  (listKeys b (revokeKey a e data db).2).1 = (listKeys b db).1 ∧
  (listKeys b (deleteKey a e data db).2).1 = (listKeys b db).1.
Proof.
  intros Hab. split; [|split]; apply listKeys_of_select; unfold select; f_equal.
  - destruct (createKey_outcome a e data db) as
      [(x & ->)|(items & tok & h & n & Hd & Htok & Hh & Hn & Hid & Hfree & _ & ->)];
      [done|].
    simpl. apply map_filter_insert_not'; simpl; [done|].
    intros y Hy. congruence.
  - destruct (revokeKey_writes a e data db) as [->|(i & k & Hi & Ha & _ & ->)]; [done|].
    simpl. apply map_filter_insert_not'; simpl; [congruence|].
    intros y Hy. congruence.
  - destruct (deleteKey_writes a e data db) as [->|(i & k & Hi & Ha & _ & ->)]; [done|].
    simpl. apply map_filter_delete_not. intros y Hy. simpl. congruence.
Qed.


Lemma substring_0_prefix s n : String.prefix (substring 0 n s) s = true.
Proof.
  revert n. induction s as [|c s IH]; intros [|n]; simpl; try done.
  destruct (Ascii.ascii_dec c c); [apply IH | done].
Qed.


(** X5. Once [revokeKey] has switched an active key of the caller off, its
    secret no longer validates and the attempt writes nothing; switched on
    again by a second [revokeKey], the secret validates as before. *)
Theorem toggled_key_does_not_validate a e e' items db i k raw_key :
  hash_unique db →
  assoc "keyID" items = Some (JInt i) →
  api_keys db !! i = Some k → admin k = a → is_active k = true →
  write_fault e = None →
  String.prefix "cp_" raw_key = true →
  sha256_hexdigest raw_key = inr (key_hash k) →
  ∃ db1 db2,
    revokeKey a e (JDict items) db =
      (JDict [("status", JInt 1); ("is_active", JBool false)], db1) ∧
    validate_key e' raw_key db1 = (inr None, db1) ∧
    revokeKey a e (JDict items) db1 =
      (JDict [("status", JInt 1); ("is_active", JBool true)], db2) ∧
    (write_fault e' = None →
       (validate_key e' raw_key db2).1
       = inr (Some (i, set_last_used k (Some (now e'))))).
Proof.
  intros Hu Hid Hi Ha Hact Hw Hp Hh.
  set (k1 := set_is_active k false).
  set (db1 := set_api_keys db (<[i := k1]> (api_keys db))).
  set (db2 := set_api_keys db1 (<[i := set_is_active k1 true]> (api_keys db1))).
  assert (Hu1 : hash_unique db1) by by apply (hash_unique_update db i k).
  assert (Hi1 : api_keys db1 !! i = Some k1) by apply lookup_insert_eq.
  assert (Hu2 : hash_unique db2) by by apply (hash_unique_update db1 i k1).
  assert (Hi2 : api_keys db2 !! i = Some k) by
    (unfold db2; simpl; rewrite lookup_insert_eq; f_equal;
     destruct k; simpl in *; by subst).
  exists db1, db2. split; [|split; [|split]].
  - rewrite (revokeKey_owned a e items db i k Hid Hi Ha), Hw, Hact. done.
  - apply (validate_key_unknown e' raw_key db1 _ Hh).
    intros j k' Hj Hk'. assert (j = i) as -> by by apply (Hu1 j i k' k1).
    rewrite Hi1 in Hj. by injection Hj as <-.
  - rewrite (revokeKey_owned a e items db1 i k1 Hid Hi1 Ha), Hw. done.
  - intros Hw'. rewrite (validate_key_found e' raw_key db2 i k); try done.
    + by rewrite Hw'.
    + intros j k' Hj Hk'. by apply (Hu2 j i k' k).
Qed.


(** X7. [validateKey] answers an owner only when the table holds an active
    row with the digest of the secret, and the owner is the one of that row;
    when it answers None nothing was written; after a successful
    [createKey] for owner [a] it answers [a] for the secret of the
    response (the write of last_used going through). *)
Theorem validateKey_owner e raw_key db :
  (∀ a db', validateKey e raw_key db = (inr (Some a), db') →
     ∃ i k, api_keys db !! i = Some k ∧ admin k = a ∧ is_active k = true ∧
            sha256_hexdigest raw_key = inr (key_hash k)) ∧
  (∀ db', validateKey e raw_key db = (inr None, db') → db' = db) ∧
  (∀ a e0 data db0 resp,
     createKey a e0 data db0 = (resp, db) →
     field "key" resp = Some (JStr raw_key) →
     write_fault e = None →
     (validateKey e raw_key db).1 = inr (Some a)).
Proof.
  split; [|split].
  - intros a db'. unfold validateKey. run.
    destruct (validate_key e raw_key db) as [[x|[r|]] db1] eqn:Hv; try done.
    intros [= <- <-].
    destruct (validate_key_match e raw_key db r db1 Hv)
      as (k0 & _ & Hh & Hi & Ha & _ & Hr & _).
    exists r.1, k0. rewrite Hr. done.
  - intros db'. unfold validateKey. run.
    destruct (validate_key e raw_key db) as [[x|[r|]] db1] eqn:Hv; try done.
    intros [= <-]. revert Hv. unfold validate_key.
    destruct (bool_decide (raw_key = "") || negb (String.prefix "cp_" raw_key));
      [by intros [= <-]|].
    unfold hash_key, update_last_used. run.
    destruct (sha256_hexdigest raw_key) as [y|h]; [done|].
    destruct (objects_get _ db) as [[y|r] db2] eqn:Hget.
    + unfold objects_get in Hget.
      destruct (select _ db) as [|? [|??]]; simplify_eq; simpl; by intros [= <-].
    + apply objects_get_returns in Hget as (-> & _).
      destruct (write_fault e) as [y|]; simpl; [|done].
      destruct y; simpl; by intros [= <-].
  - intros a e0 data db0 resp Hc Hkey Hw.
    destruct (createKey_outcome a e0 data db0) as
      [(x & Hx)|(items & tok & h & n & Hd & Htok & Hh & Hn & Hid & Hfree & _ & Hok)].
    { rewrite Hx in Hc. injection Hc as <- <-. discriminate Hkey. }
    rewrite Hok in Hc. injection Hc as <- <-. simpl in Hkey. injection Hkey as <-.
    unfold validateKey. run.
    rewrite (validate_key_found e _ _ (next_id db0)
               (new_row e0 a ("cp_" +:+ tok) h n)); try done.
    + by rewrite Hw.
    + simpl. intros j k' Hj Hk'.
      destruct (decide (j = next_id db0)) as [|Hne]; [done|].
      rewrite lookup_insert_ne in Hj by done. by destruct (Hfree j k' Hj).
    + apply cp_prefix.
    + simpl. apply lookup_insert_eq.
Qed.

(** X8. [get_prefix] never returns more than 12 characters, what it returns
    is a prefix of its argument, applying it twice changes nothing, and the
    prefix of a generated key starts with cp_. *)
Theorem get_prefix_bounds raw_key tok :
  (String.length (get_prefix raw_key) ≤ 12)%nat ∧
  String.prefix (get_prefix raw_key) raw_key = true ∧
  get_prefix (get_prefix raw_key) = get_prefix raw_key ∧
  String.prefix "cp_" (get_prefix ("cp_" +:+ tok)) = true.
Proof.
  assert (Hlen : (String.length (get_prefix raw_key) ≤ 12)%nat).
  { unfold get_prefix. case_bool_decide; [|lia].
    rewrite substring_0_length; lia. }
  split; [done|]. split; [|split].
  - rewrite get_prefix_substring. apply substring_0_prefix.
  - rewrite (get_prefix_substring (get_prefix raw_key)).
    by apply substring_0_short.
  - rewrite get_prefix_substring. simpl. by destruct tok.
Qed.

Lemma listKeys_lists db a r :
  api_keys db !! r.1 = Some r.2 → admin r.2 = a →
  ∃ keys,
    listKeys a db =
      (JDict [("status", JInt 1); ("keys", JList (key_summary <$> keys))], db) ∧
    r ∈ keys.
Proof.
  intros Hr Ha. exists (merge_sort newer_first (select (λ r, admin r.2 = a) db)).
  split; [done|]. rewrite merge_sort_Permutation. by apply elem_of_select.
Qed.

(** X9. The key a successful [createKey] made is in what [listKeys] then
    answers to its owner: an entry with the id of the response, the first 12
    characters of the secret followed by three dots as preview, the time of
    the call as created_at, no last_used, and is_active true; its name is the
    name of the payload when that is a string. *)
Theorem created_key_is_listed a e data db resp db' :
  createKey a e data db = (resp, db') →
  field "status" resp = Some (JInt 1) →
  ∃ raw_key i n keys,
    field "key" resp = Some (JStr raw_key) ∧
    field "id" resp = Some (JInt i) ∧
    (∀ s, field "name" resp = Some (JStr s) → n = s) ∧
    listKeys a db' =
      (JDict [("status", JInt 1); ("keys", JList keys)], db') ∧
    JDict [("id", JInt i);
           ("name", JStr n);
           ("key_preview", JStr (substring 0 12 raw_key +:+ "..."));
           ("created_at", JStr (isoformat (now e)));
           ("last_used", JNull);
           ("is_active", JBool true)] ∈ keys.
Proof.
  intros Hc Hst.
  destruct (createKey_outcome a e data db) as
    [(x & Hx)|(items & tok & h & n & Hd & Htok & Hh & Hn & Hid & Hfree & _ & Hok)].
  { rewrite Hx in Hc. injection Hc as <- <-. discriminate Hst. }
  rewrite Hok in Hc. injection Hc as <- <-.
  set (row := new_row e a ("cp_" +:+ tok) h n) in *.
  set (db' := mkDB (<[next_id db := row]> (api_keys db)) (next_id db + 1)).
  destruct (listKeys_lists db' a (next_id db, row)) as (keys & Hl & Hin);
    [apply lookup_insert_eq|done|].
  exists ("cp_" +:+ tok), (next_id db), n, (key_summary <$> keys).
  split; [done|]. split; [done|]. split; [|split; [done|]].
  - simpl. intros s Hs. unfold char_column in Hn.
    destruct (from_option id (JStr "Unnamed Key") (assoc "name" items));
      simplify_eq. done.
  - apply (list_elem_of_fmap_2' key_summary _ (next_id db, row)); [done|].
    unfold key_summary, row, new_row. simpl. by rewrite get_prefix_substring.
Qed.

(** X10. After a [validate_key] that returned a match, [listKeys] answers
    the owner of the matched key an entry for it whose last_used is the time
    of the validation. *)
Theorem validated_key_shows_last_used e raw_key db r db' :
  validate_key e raw_key db = (inr (Some r), db') →
  ∃ keys,
    listKeys (admin r.2) db' =
      (JDict [("status", JInt 1); ("keys", JList keys)], db') ∧
    key_summary r ∈ keys ∧
    field "id" (key_summary r) = Some (JInt r.1) ∧
    field "last_used" (key_summary r) = Some (JStr (isoformat (now e))).
Proof.
  intros Hv.
  destruct (validate_key_match e raw_key db r db' Hv)
    as (k0 & _ & _ & Hi & _ & _ & Hr & ->).
  destruct (listKeys_lists (set_api_keys db (<[r.1 := r.2]> (api_keys db)))
              (admin r.2) r) as (keys & Hl & Hin);
    [apply lookup_insert_eq|done|].
  exists (key_summary <$> keys). split; [done|]. split.
  { by apply list_elem_of_fmap_2. }
  split; [done|]. unfold key_summary. rewrite Hr. done.
Qed.


(** ** The views *)

Lemma session_admin_inr admins req userID userName :
  session_admin admins req = inr (userID, userName) →
  session_userID req = Some userID ∧ admins !! userID = Some userName.
Proof.
  unfold session_admin. destruct (session_userID req) as [u|]; [|done].
  destruct (admins !! u) eqn:Hu; [|done]. by intros [= <- <-].
Qed.

Lemma with_body_keeps admins req (method : Z → json → DB → json * DB) db j k :
  api_keys db !! j = Some k →
  session_userID req ≠ Some (admin k) →
  (∀ a data, admin k ≠ a → api_keys (method a data db).2 !! j = Some k) →
  api_keys (with_body admins req method db).2 !! j = Some k.
Proof.
  intros Hj Hs Hm. unfold with_body.
  destruct (session_admin admins req) as [x|[u n]] eqn:Ha; [done|].
  apply session_admin_inr in Ha as [Hu _].
  destruct (json_loads (body req)); [|done].
  apply Hm. intros <-. by destruct Hs.
Qed.

Lemma without_body_keeps admins req (method : Z → DB → json * DB) db j k :
  api_keys db !! j = Some k →
  session_userID req ≠ Some (admin k) →
  (∀ a, admin k ≠ a → api_keys (method a db).2 !! j = Some k) →
  api_keys (without_body admins req method db).2 !! j = Some k.
Proof.
  intros Hj Hs Hm. unfold without_body.
  destruct (session_admin admins req) as [x|[u n]] eqn:Ha; [done|].
  apply session_admin_inr in Ha as [Hu _].
  apply Hm. intros <-. by destruct Hs.
Qed.

(** X13. [apiKeysHome] renders the page exactly for a session whose
    administrator exists and is named admin; every other request is
    redirected to /login. *)
Theorem apiKeysHome_renders_for_admin_only admins version_json req :
  ((∃ userID, session_userID req = Some userID ∧ admins !! userID = Some "admin") →
     ∃ context, apiKeysHome admins version_json req
                = Render "apiKeys/apiKeys.html" context) ∧
  (¬ (∃ userID, session_userID req = Some userID ∧ admins !! userID = Some "admin") →
     apiKeysHome admins version_json req = Redirect "/login").
Proof.
  unfold apiKeysHome, session_admin. split.
  - intros (u & -> & ->). rewrite bool_decide_eq_false_2; [by eexists|]. by intros [].
  - intros Hno. destruct (session_userID req) as [u|]; [|done].
    destruct (admins !! u) as [n|] eqn:Hu; [|done].
    case_bool_decide as Hn; [done|]. destruct Hno. exists u.
    split; [done|]. rewrite Hu. f_equal. by destruct (decide (n = "admin")).
Qed.

(** X14. A request without a user id in its session, or whose user id is
    that of no administrator, gets status 0 from every view of the key
    endpoints, and the table is not written. *)
Theorem views_need_session admins e req key_id db :
  (session_userID req = None ∨
   ∃ userID, session_userID req = Some userID ∧ admins !! userID = None) →
  ∃ x,
    views_createKey admins e req db = (view_error x, db) ∧
    views_listKeys admins req db = (view_error x, db) ∧
    views_toggleKey admins e req key_id db = (view_error x, db) ∧
    views_revokeKey admins e req db = (view_error x, db) ∧
    views_deleteKey admins e req key_id db = (view_error x, db) ∧
    views_deleteKeyLegacy admins e req db = (view_error x, db) ∧
    views_getMCPConfig admins req db = (view_error x, db) ∧
    field "status" (view_error x) = Some (JInt 0).
Proof.
  intros Hs.
  assert (∃ x, session_admin admins req = inl x) as [x Hx].
  { unfold session_admin. destruct Hs as [->|(u & -> & ->)]; by eexists. }
  exists x.
  unfold views_createKey, views_listKeys, views_toggleKey, views_revokeKey,
    views_deleteKey, views_deleteKeyLegacy, views_getMCPConfig, with_body, without_body.
  rewrite Hx. done.
Qed.

(** X15. Through the views, a request changes or deletes only rows owned by
    the user of its session: a row of anyone else is as it was after every
    view, and the views of [listKeys] and [getMCPConfig] write nothing at
    all. *)
Theorem views_touch_only_session_rows admins e req key_id db j k :
  api_keys db !! j = Some k →
  session_userID req ≠ Some (admin k) →
  api_keys (views_createKey admins e req db).2 !! j = Some k ∧
  api_keys (views_toggleKey admins e req key_id db).2 !! j = Some k ∧
  api_keys (views_revokeKey admins e req db).2 !! j = Some k ∧
  api_keys (views_deleteKey admins e req key_id db).2 !! j = Some k ∧
  api_keys (views_deleteKeyLegacy admins e req db).2 !! j = Some k ∧
  (views_listKeys admins req db).2 = db ∧
  (views_getMCPConfig admins req db).2 = db.
Proof.
  intros Hj Hs. repeat split.
  - apply with_body_keeps; [done|done|]. intros a data _.
    by apply createKey_keeps_rows.
  - apply without_body_keeps; [done|done|]. intros a Ha.
    by apply revokeKey_keeps_foreign_rows.
  - apply with_body_keeps; [done|done|]. intros a data Ha.
    by apply revokeKey_keeps_foreign_rows.
  - apply without_body_keeps; [done|done|]. intros a Ha.
    by apply deleteKey_keeps_foreign_rows.
  - apply with_body_keeps; [done|done|]. intros a data Ha.
    by apply deleteKey_keeps_foreign_rows.
  - unfold views_listKeys, without_body.
    by destruct (session_admin admins req) as [x|[u n]].
  - unfold views_getMCPConfig, with_body.
    destruct (session_admin admins req) as [x|[u n]]; [done|].
    destruct (json_loads (body req)) as [data|]; [|done].
    unfold getMCPConfig, getMCPConfig_try, dict_get.
    destruct data as [| | | | | | |its]; try done. run.
    destruct (objects_get_owned _ u db) as [[x|r] db'] eqn:Hget.
    + by apply objects_get_owned_raises in Hget as ->.
    + by apply objects_get_owned_returns in Hget as (-> & _).
Qed.

(** X16. The two routes to a toggle agree, and so do the two routes to a
    delete: the view that takes the key id from the URL answers and writes
    what the legacy view does for a body whose keyID is that integer. *)
Theorem url_and_legacy_routes_agree admins e req key_id items db :
  json_loads (body req) = Some (JDict items) →
  assoc "keyID" items = Some (JInt key_id) →
  views_toggleKey admins e req key_id db = views_revokeKey admins e req db ∧
  views_deleteKey admins e req key_id db = views_deleteKeyLegacy admins e req db.
Proof.
  intros Hb Hid.
  unfold views_toggleKey, views_revokeKey, views_deleteKey, views_deleteKeyLegacy,
    with_body, without_body.
  destruct (session_admin admins req) as [x|[u n]]; [done|]. rewrite Hb.
  unfold revokeKey, revokeKey_try, deleteKey, deleteKey_try, dict_get. run.
  by rewrite Hid.
Qed.

(** X17. The check of the user name is made by [apiKeysHome] alone: an
    administrator who is not named admin is redirected from the page, while
    the views of the key endpoints call the manager for that administrator as
    for any other. *)
Theorem user_name_checked_by_page_only admins version_json e req key_id db userID userName :
  session_userID req = Some userID →
  admins !! userID = Some userName →
  userName ≠ "admin" →
  apiKeysHome admins version_json req = Redirect "/login" ∧
  views_listKeys admins req db = listKeys userID db ∧
  views_toggleKey admins e req key_id db
    = revokeKey userID e (JDict [("keyID", JInt key_id)]) db ∧
  views_deleteKey admins e req key_id db
    = deleteKey userID e (JDict [("keyID", JInt key_id)]) db ∧
  (∀ data, json_loads (body req) = Some data →
     views_createKey admins e req db = createKey userID e data db ∧
     views_revokeKey admins e req db = revokeKey userID e data db ∧
     views_deleteKeyLegacy admins e req db = deleteKey userID e data db ∧
     views_getMCPConfig admins req db = getMCPConfig userID data db).
Proof.
  intros Hs Hu Hn.
  unfold apiKeysHome, views_listKeys, views_toggleKey, views_deleteKey,
    views_createKey, views_revokeKey, views_deleteKeyLegacy, views_getMCPConfig,
    with_body, without_body, session_admin.
  rewrite Hs, Hu. rewrite bool_decide_eq_true_2 by done.
  repeat split; try done; by rewrite H.
Qed.

(** X18. A [revokeKey] that answers status 1 has written the negated
    is_active of one row of the caller and nothing else: the other columns
    of that row, every other row and the counter of the table are as
    before. *)
Theorem revokeKey_frame a e data db resp db' :
  revokeKey a e data db = (resp, db') →
  field "status" resp = Some (JInt 1) →
  ∃ i k k',
    api_keys db !! i = Some k ∧
    api_keys db' !! i = Some k' ∧
    admin k = a ∧
    is_active k' = negb (is_active k) ∧
    field "is_active" resp = Some (JBool (is_active k')) ∧
    admin k' = admin k ∧
    key_hash k' = key_hash k ∧
    key_prefix k' = key_prefix k ∧
    name k' = name k ∧
    created_at k' = created_at k ∧
    last_used k' = last_used k ∧
    (∀ j, j ≠ i → api_keys db' !! j = api_keys db !! j) ∧
    next_id db' = next_id db.
Proof.
  intros Hr Hst.
  destruct (revokeKey_writes a e data db) as [Hsame|(i & k & Hi & Ha & _ & Hok)].
  - exfalso. revert Hr Hst Hsame.
    unfold revokeKey, revokeKey_try, dict_get.
    destruct data as [| | | | | | |items]; try by intros [= <- <-]. run.
    destruct (objects_get_owned _ a db) as [[x|r] db1] eqn:Hget.
    { intros [= <- <-]. by destruct x. }
    apply objects_get_owned_returns in Hget as (-> & Hr & _).
    destruct (write_fault e) as [x|]; simpl.
    { intros [= <- <-]. by destruct x. }
    intros [= <- <-] _ Hsame.
    assert (Hl : api_keys (set_api_keys db
                    (<[r.1 := set_is_active r.2 (negb (is_active r.2))]> (api_keys db)))
                 !! r.1 = Some r.2) by by rewrite Hsame.
    simpl in Hl. rewrite lookup_insert_eq in Hl. injection Hl as Hl.
    apply (f_equal is_active) in Hl. simpl in Hl. by destruct (is_active r.2).
  - rewrite Hok in Hr. injection Hr as <- <-.
    exists i, k, (set_is_active k (negb (is_active k))). simpl.
    repeat split; try done.
    + apply lookup_insert_eq.
    + intros j Hj. by apply lookup_insert_ne.
Qed.


End Plugin.

(** ** The results on the sample data *)

Lemma create_then_validate_sample :
  createKey Sample.sha256_hexdigest Sample.isoformat Sample.exn_str Sample.py_str
    Sample.alice Sample.at_create Sample.create_payload Sample.empty_db
  = (created_response Sample.isoformat Sample.secret 1 (JStr "CI Token") Sample.row,
     Sample.db) ∧
  ∃ raw_key i row db'',
    field "key" (created_response Sample.isoformat Sample.secret 1 (JStr "CI Token") Sample.row)
      = Some (JStr raw_key) ∧
    field "id" (created_response Sample.isoformat Sample.secret 1 (JStr "CI Token") Sample.row)
      = Some (JInt i) ∧
    api_keys Sample.empty_db !! i = None ∧
    api_keys Sample.db !! i = Some row ∧
    admin row = Sample.alice ∧
    validate_key Sample.sha256_hexdigest Sample.later raw_key Sample.db =
      (inr (Some (i, set_last_used row (Some (now Sample.later)))), db'') ∧
    admin (set_last_used row (Some (now Sample.later))) = Sample.alice.
Proof.
  assert (Hc : createKey Sample.sha256_hexdigest Sample.isoformat Sample.exn_str
                 Sample.py_str Sample.alice Sample.at_create Sample.create_payload
                 Sample.empty_db
               = (created_response Sample.isoformat Sample.secret 1 (JStr "CI Token")
                    Sample.row, Sample.db)) by (vm_compute; reflexivity).
  split; [exact Hc|].
  apply (create_then_validate _ _ _ _ _ _ _ _ _ _ Sample.later Hc); reflexivity.
Defined.

Lemma validate_key_no_match_sample :
  hash_unique Sample.db_inactive ∧
  validate_key Sample.sha256_hexdigest Sample.later "" Sample.db
    = (inr None, Sample.db) ∧
  validate_key Sample.sha256_hexdigest Sample.later "0123456789abcdef" Sample.db
    = (inr None, Sample.db) ∧
  validate_key Sample.sha256_hexdigest Sample.later "cp_fedcba9876543210" Sample.db
    = (inr None, Sample.db) ∧
  validate_key Sample.sha256_hexdigest Sample.later Sample.secret Sample.db_inactive
    = (inr None, Sample.db_inactive).
Proof.
  assert (Hu : ∀ k, hash_unique (mkDB {[1 := k]} 2)) by (intros; apply hash_unique_single).
  split; [apply Hu|]. split; [|split; [|split]].
  - destruct (validate_key_no_match Sample.sha256_hexdigest Sample.later ""
                Sample.db (Hu _)) as (H & _).
    by apply H.
  - destruct (validate_key_no_match Sample.sha256_hexdigest Sample.later
                "0123456789abcdef" Sample.db (Hu _)) as (_ & H & _).
    by apply H.
  - destruct (validate_key_no_match Sample.sha256_hexdigest Sample.later
                "cp_fedcba9876543210" Sample.db (Hu _)) as (_ & _ & H & _).
    apply (H "sha256:cp_fedcba9876543210"); [reflexivity|].
    intros i k Hi. simpl in Hi. by apply lookup_singleton_Some in Hi as [_ <-].
  - destruct (validate_key_no_match Sample.sha256_hexdigest Sample.later
                Sample.secret Sample.db_inactive (Hu _)) as (_ & _ & _ & H & _).
    by apply (H 1 (set_is_active Sample.row false)).
Defined.

(** C3 as stated does not hold: the database refuses the write of last_used
    for an active key whose secret is presented, and [validate_key] raises
    instead of returning the key. *)
Lemma validate_key_touch_failure_raises :
  api_keys Sample.db !! 1 = Some Sample.row ∧
  is_active Sample.row = true ∧
  Sample.sha256_hexdigest Sample.secret = inr (key_hash Sample.row) ∧
  write_fault Sample.later_db_down = Some (ExternalError "database is gone") ∧
  validate_key Sample.sha256_hexdigest Sample.later_db_down Sample.secret Sample.db
    = (inl (ExternalError "database is gone"), Sample.db).
Proof. repeat split; vm_compute; reflexivity. Qed.

Lemma validate_key_touch_failure_sample :
  validate_key Sample.sha256_hexdigest Sample.later Sample.secret Sample.db
    = (inr (Some (1, set_last_used Sample.row (Some 200))),
       set_api_keys Sample.db (<[1 := set_last_used Sample.row (Some 200)]> (api_keys Sample.db))) ∧
  validate_key Sample.sha256_hexdigest Sample.later_db_down Sample.secret Sample.db
    = (inl (ExternalError "database is gone"), Sample.db).
Proof.
  split.
  - destruct (validate_key_touch_failure Sample.sha256_hexdigest Sample.later
                Sample.secret Sample.db 1 Sample.row (hash_unique_single _ _ _)
                eq_refl eq_refl eq_refl eq_refl) as (H & _).
    by apply H.
  - destruct (validate_key_touch_failure Sample.sha256_hexdigest Sample.later_db_down
                Sample.secret Sample.db 1 Sample.row (hash_unique_single _ _ _)
                eq_refl eq_refl eq_refl eq_refl) as (_ & H).
    by apply (H (ExternalError "database is gone")).
Defined.

Lemma createKey_all_or_nothing_sample :
  createKey Sample.sha256_hexdigest Sample.isoformat Sample.exn_str Sample.py_str
    Sample.alice Sample.no_entropy Sample.create_payload Sample.db
  = (JDict [("status", JInt 0); ("error_message", JStr "no entropy")], Sample.db) ∧
  createKey Sample.sha256_hexdigest Sample.isoformat Sample.exn_str Sample.py_str
    Sample.alice Sample.undigestible Sample.create_payload Sample.db
  = (JDict [("status", JInt 0); ("error_message", JStr "hashlib")], Sample.db).
Proof.
  split.
  - destruct (createKey_all_or_nothing Sample.sha256_hexdigest Sample.isoformat
                Sample.exn_str Sample.py_str Sample.alice Sample.no_entropy
                Sample.create_payload Sample.db) as (H & _).
    exact (H _ (ExternalError "no entropy") eq_refl eq_refl).
  - destruct (createKey_all_or_nothing Sample.sha256_hexdigest Sample.isoformat
                Sample.exn_str Sample.py_str Sample.alice Sample.undigestible
                Sample.create_payload Sample.db) as (_ & H & _).
    exact (H _ "undigestible" (ExternalError "hashlib") eq_refl eq_refl eq_refl).
Defined.


Lemma listKeys_owner_only_sample :
  listKeys Sample.isoformat Sample.exn_str Sample.alice SampleViews.db_three
  = (JDict [("status", JInt 1);
            ("keys",
             JList [JDict [("id", JInt 3);
                           ("name", JStr "Deploy");
                           ("key_preview", JStr "cp_012345678...");
                           ("created_at", JStr "1970-01-01T00:00:00");
                           ("last_used", JStr "1970-01-01T00:00:00");
                           ("is_active", JBool false)];
                    JDict [("id", JInt 1);
                           ("name", JStr "CI Token");
                           ("key_preview", JStr "cp_012345678...");
                           ("created_at", JStr "1970-01-01T00:01:40");
                           ("last_used", JNull);
                           ("is_active", JBool true)]])],
     SampleViews.db_three) ∧
  ∃ keys : list instance,
    listKeys Sample.isoformat Sample.exn_str Sample.alice SampleViews.db_three
    = (JDict [("status", JInt 1);
              ("keys", JList (key_summary Sample.isoformat <$> keys))], SampleViews.db_three) ∧
    (3, SampleViews.row_newer) ∈ keys ∧
    (1, Sample.row) ∈ keys ∧
    ((2, SampleViews.row_bob) ∉ keys) ∧
    NoDup keys.
Proof.
  split; [vm_compute; reflexivity|].
  destruct (listKeys_owner_only Sample.sha256_hexdigest Sample.isoformat Sample.exn_str Sample.py_str Sample.alice SampleViews.db_three)
    as (keys & Hl & Hin & Hnd & _).
  exists keys. split; [exact Hl|]. split; [|split; [|split]].
  - apply Hin. split; reflexivity.
  - apply Hin. split; reflexivity.
  - intros Hb. apply Hin in Hb as [_ Ha]. discriminate Ha.
  - exact Hnd.
Defined.

Lemma toggle_twice_sample :
  ∃ db1,
    revokeKey Sample.exn_str Sample.py_int Sample.alice Sample.later Sample.key_payload
      Sample.db
    = (JDict [("status", JInt 1); ("is_active", JBool false)], db1) ∧
    (is_active <$> api_keys db1 !! 1) = Some false ∧
    revokeKey Sample.exn_str Sample.py_int Sample.alice Sample.later Sample.key_payload
      db1
    = (JDict [("status", JInt 1); ("is_active", JBool true)], Sample.db).
Proof.
  apply (toggle_twice Sample.exn_str Sample.py_int Sample.alice Sample.later Sample.later
           Sample.key_items Sample.db 1 Sample.row); reflexivity.
Defined.

(** C8 as stated does not hold: a payload without keyID raises
    APIKey.DoesNotExist in the try block, and the response is the one of a
    key that does not exist, not a message about the missing field; it is
    the response a well-formed payload naming an absent key gets. *)
Lemma missing_keyID_reads_as_not_found :
  revokeKey_try Sample.py_int Sample.alice Sample.later (JDict []) Sample.db
    = (inl DoesNotExist, Sample.db) ∧
  revokeKey Sample.exn_str Sample.py_int Sample.alice Sample.later (JDict []) Sample.db
    = (ajaxPre 0 "API key not found", Sample.db) ∧
  revokeKey Sample.exn_str Sample.py_int Sample.alice Sample.later (JDict []) Sample.db
    = revokeKey Sample.exn_str Sample.py_int Sample.alice Sample.later
        (JDict [("keyID", JInt 42)]) Sample.db ∧
  deleteKey_try Sample.py_int Sample.alice Sample.later (JDict []) Sample.db
    = (inl DoesNotExist, Sample.db) ∧
  deleteKey Sample.exn_str Sample.py_int Sample.alice Sample.later (JDict []) Sample.db
    = (ajaxPre 0 "API key not found", Sample.db) ∧
  deleteKey Sample.exn_str Sample.py_int Sample.alice Sample.later (JDict []) Sample.db
    = deleteKey Sample.exn_str Sample.py_int Sample.alice Sample.later
        (JDict [("keyID", JInt 42)]) Sample.db.
Proof. repeat split; vm_compute; reflexivity. Qed.

Lemma malformed_payload_sample :
  revokeKey Sample.exn_str Sample.py_int Sample.alice Sample.later (JList []) Sample.db
    = (JDict [("status", JInt 0);
              ("error_message", JStr "object has no attribute 'get'")], Sample.db) ∧
  deleteKey Sample.exn_str Sample.py_int Sample.alice Sample.later
    (JDict [("keyID", JStr "first")]) Sample.db
    = (JDict [("status", JInt 0);
              ("error_message", JStr "Field 'id' expected a number")], Sample.db) ∧
  revokeKey Sample.exn_str Sample.py_int Sample.alice Sample.later
    (JDict [("keyID", JBool true)]) Sample.db
    = revokeKey Sample.exn_str Sample.py_int Sample.alice Sample.later Sample.key_payload Sample.db ∧
  revokeKey Sample.exn_str Sample.py_int Sample.alice Sample.later
    (JDict [("keyID", JFloat (QArith_base.Qmake 3 2))]) Sample.db
    = revokeKey Sample.exn_str Sample.py_int Sample.alice Sample.later Sample.key_payload Sample.db ∧
  revokeKey Sample.exn_str Sample.py_int Sample.alice Sample.later
    (JDict [("keyID", JStr "1")]) Sample.db
    = revokeKey Sample.exn_str Sample.py_int Sample.alice Sample.later Sample.key_payload Sample.db ∧
  revokeKey Sample.exn_str Sample.py_int Sample.alice Sample.later Sample.key_payload Sample.db
    = (JDict [("status", JInt 1); ("is_active", JBool false)], Sample.db_inactive) ∧
  revokeKey Sample.exn_str Sample.py_int Sample.alice Sample.later
    (JDict [("name", JStr "CI Token")]) Sample.db
    = (JDict [("status", JInt 0); ("error_message", JStr "API key not found")],
       Sample.db).
Proof.
  split; [|split; [|split; [|split; [|split; [|split]]]]].
  - destruct (malformed_payload Sample.exn_str Sample.py_int Sample.alice Sample.later
                (JList []) Sample.db) as (H & _).
    by apply H.
  - destruct (malformed_payload Sample.exn_str Sample.py_int Sample.alice Sample.later
                (JDict [("keyID", JStr "first")]) Sample.db) as (_ & H & _).
    refine (proj2 (H _ (JStr "first") eq_refl eq_refl _)).
    do 3 right. by exists "first".
  - destruct (malformed_payload Sample.exn_str Sample.py_int Sample.alice Sample.later
                (JDict [("keyID", JBool true)]) Sample.db) as (_ & _ & H & _).
    refine (proj1 (H _ (JBool true) 1 eq_refl eq_refl _)).
    right. left. by exists true.
  - destruct (malformed_payload Sample.exn_str Sample.py_int Sample.alice Sample.later
                (JDict [("keyID", JFloat (QArith_base.Qmake 3 2))]) Sample.db)
      as (_ & _ & H & _).
    refine (proj1 (H _ (JFloat (QArith_base.Qmake 3 2)) 1 eq_refl eq_refl _)).
    do 2 right. left. by eexists.
  - destruct (malformed_payload Sample.exn_str Sample.py_int Sample.alice Sample.later
                (JDict [("keyID", JStr "1")]) Sample.db) as (_ & _ & H & _).
    refine (proj1 (H _ (JStr "1") 1 eq_refl eq_refl _)).
    do 3 right. by exists "1".
  - vm_compute. reflexivity.
  - destruct (malformed_payload Sample.exn_str Sample.py_int Sample.alice Sample.later
                (JDict [("name", JStr "CI Token")]) Sample.db) as (_ & _ & _ & H).
    by destruct (H _ eq_refl (or_introl eq_refl)) as (Hr & _).
Defined.

Lemma get_prefix_leading_12_sample :
  get_prefix Sample.secret = "cp_012345678" ∧
  get_prefix "cp_" = "cp_" ∧
  ∃ i row,
    field "id" (created_response Sample.isoformat Sample.secret 1 (JStr "CI Token") Sample.row)
      = Some (JInt i) ∧
    api_keys Sample.db !! i = Some row ∧
    key_prefix row = "cp_012345678" ∧
    field "key_prefix"
      (created_response Sample.isoformat Sample.secret 1 (JStr "CI Token") Sample.row)
      = Some (JStr "cp_012345678").
Proof.
  split; [|split].
  - destruct (get_prefix_leading_12 Sample.sha256_hexdigest Sample.isoformat
                Sample.exn_str Sample.py_str Sample.secret) as (H & _).
    apply H. vm_compute. lia.
  - destruct (get_prefix_leading_12 Sample.sha256_hexdigest Sample.isoformat
                Sample.exn_str Sample.py_str "cp_") as (_ & H & _).
    apply H. vm_compute. lia.
  - destruct (get_prefix_leading_12 Sample.sha256_hexdigest Sample.isoformat
                Sample.exn_str Sample.py_str Sample.secret) as (_ & _ & H).
    apply (H Sample.alice Sample.at_create Sample.create_payload Sample.empty_db);
      vm_compute; reflexivity.
Defined.

Lemma validate_key_frame_sample :
  validate_key Sample.sha256_hexdigest Sample.later Sample.secret Sample.db
    = (inr (Some (1, set_last_used Sample.row (Some 200))),
       mkDB {[1 := set_last_used Sample.row (Some 200)]} 2) ∧
  ∃ k0,
    api_keys Sample.db !! 1 = Some k0 ∧
    api_keys (mkDB {[1 := set_last_used Sample.row (Some 200)]} 2) !! 1
      = Some (set_last_used Sample.row (Some 200)) ∧
    last_used (set_last_used Sample.row (Some 200)) = Some (now Sample.later) ∧
    is_active (set_last_used Sample.row (Some 200)) = is_active k0 ∧
    key_hash (set_last_used Sample.row (Some 200)) = key_hash k0 ∧
    key_prefix (set_last_used Sample.row (Some 200)) = key_prefix k0 ∧
    name (set_last_used Sample.row (Some 200)) = name k0 ∧
    created_at (set_last_used Sample.row (Some 200)) = created_at k0 ∧
    admin (set_last_used Sample.row (Some 200)) = admin k0 ∧
    (∀ j, j ≠ 1 →
       api_keys (mkDB {[1 := set_last_used Sample.row (Some 200)]} 2) !! j
       = api_keys Sample.db !! j) ∧
    next_id (mkDB {[1 := set_last_used Sample.row (Some 200)]} 2) = next_id Sample.db.
Proof.
  assert (Hv : validate_key Sample.sha256_hexdigest Sample.later Sample.secret Sample.db
               = (inr (Some (1, set_last_used Sample.row (Some 200))),
                  mkDB {[1 := set_last_used Sample.row (Some 200)]} 2))
    by (vm_compute; reflexivity).
  split; [exact Hv|].
  exact (validate_key_frame Sample.sha256_hexdigest Sample.later Sample.secret Sample.db
           _ _ Hv).
Defined.

(** The life of one key: alice creates it and sees it listed, bob sees
    nothing; once alice has toggled it the secret no longer validates; once
    she has deleted it a further toggle finds no key. *)
Example key_lifecycle :
  let create := createKey Sample.sha256_hexdigest Sample.isoformat Sample.exn_str
                  Sample.py_str Sample.alice Sample.at_create Sample.create_payload
                  Sample.empty_db in
  let toggle := revokeKey Sample.exn_str Sample.py_int Sample.alice Sample.later
                  Sample.key_payload create.2 in
  let delete := deleteKey Sample.exn_str Sample.py_int Sample.alice Sample.later
                  Sample.key_payload toggle.2 in
  field "key" create.1 = Some (JStr Sample.secret) ∧
  field "key_prefix" create.1 = Some (JStr "cp_012345678") ∧
  (listKeys Sample.isoformat Sample.exn_str Sample.alice create.2).1 =
    JDict [("status", JInt 1);
           ("keys", JList [JDict [("id", JInt 1);
                                  ("name", JStr "CI Token");
                                  ("key_preview", JStr "cp_012345678...");
                                  ("created_at", JStr "1970-01-01T00:01:40");
                                  ("last_used", JNull);
                                  ("is_active", JBool true)]])] ∧
  (listKeys Sample.isoformat Sample.exn_str Sample.bob create.2).1 =
    JDict [("status", JInt 1); ("keys", JList [])] ∧
  toggle.1 = JDict [("status", JInt 1); ("is_active", JBool false)] ∧
  (validate_key Sample.sha256_hexdigest Sample.later Sample.secret toggle.2).1 = inr None ∧
  delete = (JDict [("status", JInt 1)], mkDB ∅ 2) ∧
  (revokeKey Sample.exn_str Sample.py_int Sample.alice Sample.later
     Sample.key_payload delete.2).1 = ajaxPre 0 "API key not found".
Proof. vm_compute. repeat split; reflexivity. Qed.

(** ** The further results on the sample data *)

Lemma hash_unique_db_two : hash_unique SampleViews.db_two.
Proof.
  intros i j ki kj. unfold SampleViews.db_two. simpl.
  rewrite !lookup_insert_Some, !lookup_singleton_Some.
  intros [[<- <-]|[_ [<- <-]]] [[<- <-]|[_ [<- <-]]]; done.
Qed.

Lemma key_hash_stays_unique_sample :
  hash_unique SampleViews.db_two ∧
  hash_unique (createKey Sample.sha256_hexdigest Sample.isoformat Sample.exn_str Sample.py_str Sample.alice Sample.later Sample.key_payload
                 SampleViews.db_two).2 ∧
  hash_unique (validate_key Sample.sha256_hexdigest Sample.later Sample.secret SampleViews.db_two).2 ∧
  hash_unique (revokeKey Sample.exn_str Sample.py_int Sample.alice Sample.later Sample.key_payload
                 SampleViews.db_two).2 ∧
  hash_unique (deleteKey Sample.exn_str Sample.py_int Sample.alice Sample.later Sample.key_payload
                 SampleViews.db_two).2.
Proof.
  split; [apply hash_unique_db_two|].
  destruct (key_hash_stays_unique Sample.sha256_hexdigest Sample.isoformat Sample.exn_str Sample.py_str Sample.py_int Sample.alice Sample.later
              Sample.key_payload Sample.secret SampleViews.db_two hash_unique_db_two)
    as (_ & H).
  exact H.
Defined.

Lemma other_rows_untouched_sample :
  api_keys SampleViews.db_two !! 2 = Some SampleViews.row_bob ∧
  admin SampleViews.row_bob ≠ Sample.alice ∧
  api_keys (createKey Sample.sha256_hexdigest Sample.isoformat Sample.exn_str Sample.py_str Sample.alice Sample.later Sample.key_payload
              SampleViews.db_two).2 !! 2 = Some SampleViews.row_bob ∧
  api_keys (revokeKey Sample.exn_str Sample.py_int Sample.alice Sample.later Sample.key_payload
              SampleViews.db_two).2 !! 2 = Some SampleViews.row_bob ∧
  api_keys (deleteKey Sample.exn_str Sample.py_int Sample.alice Sample.later Sample.key_payload
              SampleViews.db_two).2 !! 2 = Some SampleViews.row_bob.
Proof.
  assert (Hne : admin SampleViews.row_bob ≠ Sample.alice) by discriminate.
  split; [reflexivity|]. split; [exact Hne|].
  destruct (other_rows_untouched Sample.sha256_hexdigest Sample.isoformat Sample.exn_str Sample.py_str Sample.py_int Sample.alice Sample.later
              Sample.key_payload SampleViews.db_two 2 SampleViews.row_bob eq_refl)
    as (H1 & H2).
  split; [exact H1|]. exact (H2 Hne).
Defined.

Lemma other_listing_unchanged_sample :
  (listKeys Sample.isoformat Sample.exn_str Sample.bob
     (createKey Sample.sha256_hexdigest Sample.isoformat Sample.exn_str Sample.py_str Sample.alice Sample.later Sample.key_payload
        SampleViews.db_two).2).1
  = (listKeys Sample.isoformat Sample.exn_str Sample.bob SampleViews.db_two).1 ∧
  (listKeys Sample.isoformat Sample.exn_str Sample.bob
     (revokeKey Sample.exn_str Sample.py_int Sample.alice Sample.later Sample.key_payload
        SampleViews.db_two).2).1
  = (listKeys Sample.isoformat Sample.exn_str Sample.bob SampleViews.db_two).1 ∧
  (listKeys Sample.isoformat Sample.exn_str Sample.bob
     (deleteKey Sample.exn_str Sample.py_int Sample.alice Sample.later Sample.key_payload
        SampleViews.db_two).2).1
  = (listKeys Sample.isoformat Sample.exn_str Sample.bob SampleViews.db_two).1.
Proof.
  apply (other_listing_unchanged Sample.sha256_hexdigest Sample.isoformat Sample.exn_str Sample.py_str Sample.py_int Sample.alice Sample.bob
           Sample.later Sample.key_payload SampleViews.db_two).
  discriminate.
Defined.


Lemma toggled_key_does_not_validate_sample :
  ∃ db1 db2,
    revokeKey Sample.exn_str Sample.py_int Sample.alice Sample.later Sample.key_payload Sample.db
      = (JDict [("status", JInt 1); ("is_active", JBool false)], db1) ∧
    validate_key Sample.sha256_hexdigest Sample.later Sample.secret db1 = (inr None, db1) ∧
    revokeKey Sample.exn_str Sample.py_int Sample.alice Sample.later Sample.key_payload db1
      = (JDict [("status", JInt 1); ("is_active", JBool true)], db2) ∧
    (write_fault Sample.later = None →
       (validate_key Sample.sha256_hexdigest Sample.later Sample.secret db2).1
       = inr (Some (1, set_last_used Sample.row (Some (now Sample.later))))).
Proof.
  exact (toggled_key_does_not_validate Sample.sha256_hexdigest Sample.exn_str Sample.py_int Sample.alice Sample.later
           Sample.later Sample.key_items Sample.db 1 Sample.row Sample.secret
           (hash_unique_single _ _ _) eq_refl eq_refl eq_refl eq_refl eq_refl
           eq_refl eq_refl).
Defined.


Lemma validateKey_owner_sample :
  validateKey Sample.sha256_hexdigest Sample.later Sample.secret Sample.db
    = (inr (Some Sample.alice),
       mkDB {[1 := set_last_used Sample.row (Some 200)]} 2) ∧
  (∃ i k, api_keys Sample.db !! i = Some k ∧ admin k = Sample.alice ∧
          is_active k = true ∧
          Sample.sha256_hexdigest Sample.secret = inr (key_hash k)) ∧
  (validateKey Sample.sha256_hexdigest Sample.later Sample.secret Sample.db).1 = inr (Some Sample.alice).
Proof.
  assert (Hv : validateKey Sample.sha256_hexdigest Sample.later Sample.secret Sample.db
               = (inr (Some Sample.alice),
                  mkDB {[1 := set_last_used Sample.row (Some 200)]} 2))
    by (vm_compute; reflexivity).
  destruct (validateKey_owner Sample.sha256_hexdigest Sample.isoformat Sample.exn_str Sample.py_str Sample.later Sample.secret Sample.db)
    as (H1 & _ & H3).
  split; [exact Hv|]. split.
  - exact (H1 _ _ Hv).
  - apply (H3 Sample.alice Sample.at_create Sample.create_payload Sample.empty_db
             (created_response Sample.isoformat Sample.secret 1 (JStr "CI Token")
                Sample.row)); vm_compute; reflexivity.
Defined.

Lemma created_key_is_listed_sample :
  ∃ raw_key i n keys,
    field "key" (created_response Sample.isoformat Sample.secret 1 (JStr "CI Token")
                   Sample.row) = Some (JStr raw_key) ∧
    field "id" (created_response Sample.isoformat Sample.secret 1 (JStr "CI Token")
                  Sample.row) = Some (JInt i) ∧
    (∀ s, field "name" (created_response Sample.isoformat Sample.secret 1
                          (JStr "CI Token") Sample.row) = Some (JStr s) → n = s) ∧
    listKeys Sample.isoformat Sample.exn_str Sample.alice Sample.db
      = (JDict [("status", JInt 1); ("keys", JList keys)], Sample.db) ∧
    JDict [("id", JInt i);
           ("name", JStr n);
           ("key_preview", JStr (substring 0 12 raw_key +:+ "..."));
           ("created_at", JStr (Sample.isoformat (now Sample.at_create)));
           ("last_used", JNull);
           ("is_active", JBool true)] ∈ keys.
Proof.
  apply (created_key_is_listed Sample.sha256_hexdigest Sample.isoformat Sample.exn_str Sample.py_str Sample.alice Sample.at_create
           Sample.create_payload Sample.empty_db); vm_compute; reflexivity.
Defined.

Lemma validated_key_shows_last_used_sample :
  ∃ keys,
    listKeys Sample.isoformat Sample.exn_str (admin (set_last_used Sample.row (Some 200)))
      (mkDB {[1 := set_last_used Sample.row (Some 200)]} 2)
    = (JDict [("status", JInt 1); ("keys", JList keys)],
       mkDB {[1 := set_last_used Sample.row (Some 200)]} 2) ∧
    key_summary Sample.isoformat (1, set_last_used Sample.row (Some 200)) ∈ keys ∧
    field "id" (key_summary Sample.isoformat (1, set_last_used Sample.row (Some 200)))
      = Some (JInt 1) ∧
    field "last_used" (key_summary Sample.isoformat (1, set_last_used Sample.row (Some 200)))
      = Some (JStr (Sample.isoformat (now Sample.later))).
Proof.
  apply (validated_key_shows_last_used Sample.sha256_hexdigest Sample.isoformat Sample.exn_str Sample.later Sample.secret Sample.db
           (1, set_last_used Sample.row (Some 200))).
  vm_compute; reflexivity.
Defined.


Lemma apiKeysHome_renders_for_admin_only_sample :
  (∃ context, apiKeysHome SampleViews.admins None SampleViews.as_alice
              = Render "apiKeys/apiKeys.html" context) ∧
  apiKeysHome SampleViews.admins None SampleViews.as_bob = Redirect "/login" ∧
  apiKeysHome SampleViews.admins None SampleViews.as_nobody = Redirect "/login".
Proof.
  split; [|split].
  - destruct (apiKeysHome_renders_for_admin_only SampleViews.admins None
                SampleViews.as_alice) as (H & _).
    apply H. exists 1. split; reflexivity.
  - destruct (apiKeysHome_renders_for_admin_only SampleViews.admins None
                SampleViews.as_bob) as (_ & H).
    apply H. intros (u & Hu & Hn). simpl in Hu. injection Hu as <-. discriminate Hn.
  - destruct (apiKeysHome_renders_for_admin_only SampleViews.admins None
                SampleViews.as_nobody) as (_ & H).
    apply H. intros (u & Hu & _). discriminate Hu.
Defined.

Lemma views_need_session_sample :
  ∃ x,
    views_createKey Sample.sha256_hexdigest Sample.isoformat Sample.exn_str Sample.py_str SampleViews.json_loads SampleViews.view_exn_str SampleViews.admins Sample.later
      SampleViews.as_stranger Sample.db = (view_error SampleViews.view_exn_str x, Sample.db) ∧
    views_listKeys Sample.isoformat Sample.exn_str SampleViews.view_exn_str SampleViews.admins SampleViews.as_stranger Sample.db
      = (view_error SampleViews.view_exn_str x, Sample.db) ∧
    views_toggleKey Sample.exn_str Sample.py_int SampleViews.view_exn_str SampleViews.admins Sample.later SampleViews.as_stranger 1
      Sample.db = (view_error SampleViews.view_exn_str x, Sample.db) ∧
    views_revokeKey Sample.exn_str Sample.py_int SampleViews.json_loads SampleViews.view_exn_str SampleViews.admins Sample.later
      SampleViews.as_stranger Sample.db = (view_error SampleViews.view_exn_str x, Sample.db) ∧
    views_deleteKey Sample.exn_str Sample.py_int SampleViews.view_exn_str SampleViews.admins Sample.later SampleViews.as_stranger 1
      Sample.db = (view_error SampleViews.view_exn_str x, Sample.db) ∧
    views_deleteKeyLegacy Sample.exn_str Sample.py_int SampleViews.json_loads SampleViews.view_exn_str SampleViews.admins Sample.later
      SampleViews.as_stranger Sample.db = (view_error SampleViews.view_exn_str x, Sample.db) ∧
    views_getMCPConfig Sample.exn_str Sample.py_int SampleViews.json_dumps_indent SampleViews.json_loads SampleViews.view_exn_str SampleViews.admins SampleViews.as_stranger
      Sample.db = (view_error SampleViews.view_exn_str x, Sample.db) ∧
    field "status" (view_error SampleViews.view_exn_str x) = Some (JInt 0).
Proof.
  apply (views_need_session Sample.sha256_hexdigest Sample.isoformat Sample.exn_str Sample.py_str Sample.py_int SampleViews.json_dumps_indent SampleViews.json_loads SampleViews.view_exn_str SampleViews.admins
           Sample.later SampleViews.as_stranger 1 Sample.db).
  right. exists 9. split; reflexivity.
Defined.

Lemma views_touch_only_session_rows_sample :
  api_keys (views_createKey Sample.sha256_hexdigest Sample.isoformat Sample.exn_str Sample.py_str SampleViews.json_loads SampleViews.view_exn_str SampleViews.admins Sample.later
              SampleViews.as_bob Sample.db).2 !! 1 = Some Sample.row ∧
  api_keys (views_toggleKey Sample.exn_str Sample.py_int SampleViews.view_exn_str SampleViews.admins Sample.later
              SampleViews.as_bob 1 Sample.db).2 !! 1 = Some Sample.row ∧
  api_keys (views_revokeKey Sample.exn_str Sample.py_int SampleViews.json_loads SampleViews.view_exn_str SampleViews.admins Sample.later
              SampleViews.as_bob Sample.db).2 !! 1 = Some Sample.row ∧
  api_keys (views_deleteKey Sample.exn_str Sample.py_int SampleViews.view_exn_str SampleViews.admins Sample.later
              SampleViews.as_bob 1 Sample.db).2 !! 1 = Some Sample.row ∧
  api_keys (views_deleteKeyLegacy Sample.exn_str Sample.py_int SampleViews.json_loads SampleViews.view_exn_str SampleViews.admins Sample.later
              SampleViews.as_bob Sample.db).2 !! 1 = Some Sample.row ∧
  (views_listKeys Sample.isoformat Sample.exn_str SampleViews.view_exn_str SampleViews.admins SampleViews.as_bob Sample.db).2
    = Sample.db ∧
  (views_getMCPConfig Sample.exn_str Sample.py_int SampleViews.json_dumps_indent SampleViews.json_loads SampleViews.view_exn_str SampleViews.admins SampleViews.as_bob
     Sample.db).2 = Sample.db.
Proof.
  apply (views_touch_only_session_rows Sample.sha256_hexdigest Sample.isoformat Sample.exn_str Sample.py_str Sample.py_int SampleViews.json_dumps_indent SampleViews.json_loads SampleViews.view_exn_str
           SampleViews.admins Sample.later SampleViews.as_bob 1 Sample.db 1 Sample.row);
    [reflexivity|discriminate].
Defined.

Lemma url_and_legacy_routes_agree_sample :
  views_toggleKey Sample.exn_str Sample.py_int SampleViews.view_exn_str SampleViews.admins Sample.later SampleViews.as_alice 1
    Sample.db
  = views_revokeKey Sample.exn_str Sample.py_int SampleViews.json_loads SampleViews.view_exn_str SampleViews.admins Sample.later SampleViews.as_alice
      Sample.db ∧
  views_deleteKey Sample.exn_str Sample.py_int SampleViews.view_exn_str SampleViews.admins Sample.later SampleViews.as_alice 1
    Sample.db
  = views_deleteKeyLegacy Sample.exn_str Sample.py_int SampleViews.json_loads SampleViews.view_exn_str SampleViews.admins Sample.later
      SampleViews.as_alice Sample.db.
Proof.
  apply (url_and_legacy_routes_agree Sample.exn_str Sample.py_int SampleViews.json_loads SampleViews.view_exn_str SampleViews.admins Sample.later
           SampleViews.as_alice 1 Sample.key_items Sample.db); reflexivity.
Defined.

Lemma user_name_checked_by_page_only_sample :
  apiKeysHome SampleViews.admins None SampleViews.as_bob = Redirect "/login" ∧
  views_createKey Sample.sha256_hexdigest Sample.isoformat Sample.exn_str Sample.py_str SampleViews.json_loads SampleViews.view_exn_str SampleViews.admins Sample.later
    SampleViews.as_bob Sample.db
  = createKey Sample.sha256_hexdigest Sample.isoformat Sample.exn_str Sample.py_str Sample.bob Sample.later Sample.key_payload Sample.db ∧
  field "status"
    (views_createKey Sample.sha256_hexdigest Sample.isoformat Sample.exn_str Sample.py_str SampleViews.json_loads SampleViews.view_exn_str SampleViews.admins Sample.later
       SampleViews.as_bob Sample.db).1 = Some (JInt 1).
Proof.
  destruct (user_name_checked_by_page_only Sample.sha256_hexdigest Sample.isoformat Sample.exn_str Sample.py_str Sample.py_int SampleViews.json_dumps_indent SampleViews.json_loads SampleViews.view_exn_str
              SampleViews.admins None Sample.later SampleViews.as_bob 1 Sample.db
              2 "bob" eq_refl eq_refl ltac:(discriminate)) as (H1 & _ & _ & _ & H5).
  split; [exact H1|].
  destruct (H5 Sample.key_payload eq_refl) as (Hc & _).
  split; [exact Hc|]. vm_compute. reflexivity.
Defined.

Lemma revokeKey_frame_sample :
  ∃ i k k',
    api_keys SampleViews.db_two !! i = Some k ∧
    api_keys (revokeKey Sample.exn_str Sample.py_int Sample.alice Sample.later Sample.key_payload
                SampleViews.db_two).2 !! i = Some k' ∧
    admin k = Sample.alice ∧
    is_active k' = negb (is_active k) ∧
    field "is_active"
      (revokeKey Sample.exn_str Sample.py_int Sample.alice Sample.later Sample.key_payload
         SampleViews.db_two).1 = Some (JBool (is_active k')) ∧
    admin k' = admin k ∧
    key_hash k' = key_hash k ∧
    key_prefix k' = key_prefix k ∧
    name k' = name k ∧
    created_at k' = created_at k ∧
    last_used k' = last_used k ∧
    (∀ j, j ≠ i →
       api_keys (revokeKey Sample.exn_str Sample.py_int Sample.alice Sample.later Sample.key_payload
                   SampleViews.db_two).2 !! j = api_keys SampleViews.db_two !! j) ∧
    next_id (revokeKey Sample.exn_str Sample.py_int Sample.alice Sample.later Sample.key_payload
               SampleViews.db_two).2 = next_id SampleViews.db_two.
Proof.
  apply (revokeKey_frame Sample.exn_str Sample.py_int Sample.alice Sample.later Sample.key_payload
           SampleViews.db_two).
  - apply surjective_pairing.
  - vm_compute. reflexivity.
Defined.

